(** * build_tf_policy: the policy-class factory of rllib/policy/tf_policy_template.py

    A shallow embedding of [build_tf_policy] and of the class it returns.
    The factory is modelled over an interpreter state that holds the list
    objects (so that a list shared between the caller, the factory's
    [original_kwargs] and a later [with_updates] call is one object) and
    the supply of class identities.  The methods of the produced class are
    modelled in a small monad that records every call leaving the class
    (user callbacks, base-class methods) and every attribute the class
    itself assigns. *)

From stdpp Require Import base gmap strings list.

Open Scope string_scope.
Open Scope list_scope.
Open Scope nat_scope.

(** ** Python values *)

(** Opaque objects (tensors, optimizers, batches, spaces) are identified by
    a number; dictionaries are keyed by strings, as unpacking one into
    keyword arguments requires. *)
#[warning="-register-all"] Inductive pyval :=
| PyNone
| PyObj (id : nat)
| PyDict (d : gmap string pyval).

Abbreviation dict := (gmap string pyval).

(** [dict(a, ** b)]: a copy of [a] updated with the entries of [b]. *)
Definition py_dict (a b : dict) : dict := b ∪ a.

(** Function objects are compared by identity. *)
Inductive fn := Fn (id : nat).

#[global] Instance fn_eq_dec : EqDecision fn.
Proof. solve_decision. Defined.

(** ** Outcomes *)

Inductive exn := TypeError | AttributeError | IndexError | DanglingRef | OutOfFuel.

Inductive outcome (A : Type) :=
| Returns (a : A)
| Raises (e : exn).
Arguments Returns {A} a.
Arguments Raises {A} e.

Definition obind {A B} (x : outcome A) (k : A → outcome B) : outcome B :=
  match x with
  | Returns a => k a
  | Raises e => Raises e
  end.

Notation "'let*' x := e1 'in' e2" := (obind e1 (λ x, e2))
  (at level 10, x pattern, e1 at level 100, e2 at level 200).

(** ** Classes and their linearisation *)

Module Mro.

(** What a class statement contributes: an identity and the names its body
    defines. *)
Record class_body := ClassBody { cid : nat; cdict : gset string }.

#[global] Instance class_body_eq_dec : EqDecision class_body.
Proof. solve_decision. Defined.

(** A class object: its own body and the rest of its [__mro__]. *)
Record pyclass := PyClass { cls_body : class_body; cls_ancestors : list class_body }.

#[global] Instance pyclass_eq_dec : EqDecision pyclass.
Proof. solve_decision. Defined.

Definition mro (c : pyclass) : list class_body := cls_body c :: cls_ancestors c.

(** C3 merge, as the interpreter runs it: the first head that occurs in no
    tail is taken and removed from the front of every sequence. *)
Definition in_some_tail (c : class_body) (seqs : list (list class_body)) : bool :=
  existsb (λ s, bool_decide (c ∈ tail s)) seqs.

Definition candidate (seqs : list (list class_body)) : option class_body :=
  find (λ c, negb (in_some_tail c seqs)) (omap head seqs).

Definition drop_head (c : class_body) (s : list class_body) : list class_body :=
  match s with
  | x :: s' => if decide (x = c) then s' else s
  | [] => []
  end.

Definition nonempty {A} (s : list A) : bool :=
  match s with [] => false | _ => true end.

Fixpoint c3_merge (fuel : nat) (seqs : list (list class_body))
  : outcome (list class_body) :=
  match List.filter nonempty seqs with
  | [] => Returns []
  | live =>
      match fuel with
      | 0 => Raises OutOfFuel
      | S n =>
          match candidate live with
          | None => Raises TypeError
          | Some c =>
              let* r := c3_merge n (map (drop_head c) live) in
              Returns (c :: r)
          end
      end
  end.

Definition total_length (seqs : list (list class_body)) : nat :=
  foldr (λ s n, length s + n) 0 seqs.

(** [class <id>(bases): <body>] *)
Definition class_stmt (id : nat) (body : gset string) (bases : list pyclass)
  : outcome pyclass :=
  let seqs := map mro bases ++ [map cls_body bases] in
  let* anc := c3_merge (total_length seqs) seqs in
  Returns (PyClass (ClassBody id body) anc).

(** Attribute lookup on a class: the first class of the [__mro__] whose
    body defines the name. *)
Definition defines (m : string) (b : class_body) : bool := bool_decide (m ∈ cdict b).

Definition class_getattr (c : pyclass) (m : string) : option class_body :=
  find (defines m) (mro c).

End Mro.
Export Mro.

(** ** The factory *)

Module Factory.

(** List objects live in the interpreter state and are passed by reference. *)
Definition loc := nat.

Record interp := Interp {
  lists : gmap loc (list pyclass);
  next_cid : nat
}.

Definition set_list (l : loc) (ms : list pyclass) (st : interp) : interp :=
  Interp (<[l := ms]> (lists st)) (next_cid st).

Definition fresh_cid (st : interp) : interp :=
  Interp (lists st) (S (next_cid st)).

(** The parameters of [build_tf_policy], indexed by how they are held:
    [args Given] is a complete set of arguments (the function's locals),
    [args option] a set of keyword overrides, each present or absent. *)
Record args (F : Type → Type) := Args {
  name : F string;
  loss_fn : F fn;
  get_default_config : F (option fn);
  postprocess_fn : F (option fn);
  stats_fn : F (option fn);
  update_ops_fn : F (option fn);
  optimizer_fn : F (option fn);
  gradients_fn : F (option fn);
  grad_stats_fn : F (option fn);
  extra_action_fetches_fn : F (option fn);
  extra_action_feed_fn : F (option fn);
  extra_learn_fetches_fn : F (option fn);
  extra_learn_feed_fn : F (option fn);
  before_init : F (option fn);
  before_loss_init : F (option fn);
  after_init : F (option fn);
  make_action_sampler : F (option fn);
  mixins : F (option loc);
  get_batch_divisibility_req : F (option fn);
  obs_include_prev_action_reward : F bool
}.
Arguments Args {F}.
Arguments name {F}.
Arguments loss_fn {F}.
Arguments get_default_config {F}.
Arguments postprocess_fn {F}.
Arguments stats_fn {F}.
Arguments update_ops_fn {F}.
Arguments optimizer_fn {F}.
Arguments gradients_fn {F}.
Arguments grad_stats_fn {F}.
Arguments extra_action_fetches_fn {F}.
Arguments extra_action_feed_fn {F}.
Arguments extra_learn_fetches_fn {F}.
Arguments extra_learn_feed_fn {F}.
Arguments before_init {F}.
Arguments before_loss_init {F}.
Arguments after_init {F}.
Arguments make_action_sampler {F}.
Arguments mixins {F}.
Arguments get_batch_divisibility_req {F}.
Arguments obs_include_prev_action_reward {F}.

Definition Given (T : Type) : Type := T.

Abbreviation kwargs := (args Given).
Abbreviation overrides := (args option).

(** The signature's defaults: everything but [name] and [loss_fn]. *)
Definition defaults (name : string) (loss_fn : fn) : kwargs :=
  Args (F := Given) name loss_fn None None None None None None None None None
       None None None None None None None None true.

Definition no_overrides : overrides :=
  Args (F := option) None None None None None None None None None None None
       None None None None None None None None None.

(** [original_kwargs] updated with the keyword overrides, as [dict] does. *)
Definition dict_kwargs (original : kwargs) (ov : overrides) : kwargs :=
  let pick {T} (old : Given T) (new : option T) : Given T := default old new in
  {| name := pick (name original) (name ov);
     loss_fn := pick (loss_fn original) (loss_fn ov);
     get_default_config := pick (get_default_config original) (get_default_config ov);
     postprocess_fn := pick (postprocess_fn original) (postprocess_fn ov);
     stats_fn := pick (stats_fn original) (stats_fn ov);
     update_ops_fn := pick (update_ops_fn original) (update_ops_fn ov);
     optimizer_fn := pick (optimizer_fn original) (optimizer_fn ov);
     gradients_fn := pick (gradients_fn original) (gradients_fn ov);
     grad_stats_fn := pick (grad_stats_fn original) (grad_stats_fn ov);
     extra_action_fetches_fn :=
       pick (extra_action_fetches_fn original) (extra_action_fetches_fn ov);
     extra_action_feed_fn :=
       pick (extra_action_feed_fn original) (extra_action_feed_fn ov);
     extra_learn_fetches_fn :=
       pick (extra_learn_fetches_fn original) (extra_learn_fetches_fn ov);
     extra_learn_feed_fn :=
       pick (extra_learn_feed_fn original) (extra_learn_feed_fn ov);
     before_init := pick (before_init original) (before_init ov);
     before_loss_init := pick (before_loss_init original) (before_loss_init ov);
     after_init := pick (after_init original) (after_init ov);
     make_action_sampler := pick (make_action_sampler original) (make_action_sampler ov);
     mixins := pick (mixins original) (mixins ov);
     get_batch_divisibility_req :=
       pick (get_batch_divisibility_req original) (get_batch_divisibility_req ov);
     obs_include_prev_action_reward :=
       pick (obs_include_prev_action_reward original) (obs_include_prev_action_reward ov) |}.

(** The class returned by the factory: the class object, its two name
    attributes, the factory parameters its methods refer to, and the
    [original_kwargs] its [with_updates] refers to. *)
Record policy_class := PolicyClass {
  pc_class : pyclass;
  pc_name : string;
  pc_qualname : string;
  pc_closure : kwargs;
  pc_original_kwargs : kwargs
}.

(** Names bound in the body of [class policy_cls(base)]. *)
Definition policy_cls_body : gset string :=
  list_to_set
    [ "__init__"; "postprocess_trajectory"; "optimizer"; "gradients";
      "extra_compute_action_fetches"; "extra_compute_action_feed_dict";
      "extra_compute_grad_fetches"; "extra_compute_grad_feed_dict" ].

Definition class_setattr (m : string) (c : pyclass) : pyclass :=
  PyClass (ClassBody (cid (cls_body c)) ({[ m ]} ∪ cdict (cls_body c)))
          (cls_ancestors c).

Section build.

(** The fixed base class, imported from [dynamic_tf_policy]. *)
Variable DynamicTFPolicy : pyclass.

(** Truth value of [mixins]: [None] and the empty list are false. *)
Definition mixins_truthy (mixins : option loc) (st : interp) : outcome bool :=
  match mixins with
  | None => Returns false
  | Some l =>
      match lists st !! l with
      | Some ms => Returns (nonempty ms)
      | None => Raises DanglingRef
      end
  end.

(** [mixins.pop()]: removes and returns the last item of the list object. *)
Definition list_pop (l : loc) (st : interp) : outcome (interp * pyclass) :=
  match lists st !! l with
  | None => Raises DanglingRef
  | Some ms =>
      match last ms with
      | None => Raises IndexError
      | Some c => Returns (set_list l (removelast ms) st, c)
      end
  end.

(** [while mixins: class new_base(mixins.pop(), base): pass; base = new_base] *)
Fixpoint while_mixins (fuel : nat) (mixins : option loc) (base : pyclass)
    (st : interp) : outcome (interp * pyclass) :=
  let* more := mixins_truthy mixins st in
  if (more : bool) then
    match fuel with
    | 0 => Raises OutOfFuel
    | S n =>
        match mixins with
        | None => Raises AttributeError
        | Some l =>
            let* (st, popped) := list_pop l st in
            let* new_base := class_stmt (next_cid st) ∅ [popped; base] in
            while_mixins n mixins new_base (fresh_cid st)
        end
    end
  else Returns (st, base).

Definition mixins_length (mixins : option loc) (st : interp) : nat :=
  match mixins with
  | Some l => length (default [] (lists st !! l))
  | None => 0
  end.

Definition build_tf_policy (kw : kwargs) (st : interp)
  : outcome (interp * policy_class) :=
  let original_kwargs := kw in
  let base := DynamicTFPolicy in
  let* (st, base) := while_mixins (mixins_length (mixins kw) st) (mixins kw) base st in
  let* cls := class_stmt (next_cid st) policy_cls_body [base] in
  let st := fresh_cid st in
  let policy_cls :=
    PolicyClass cls "policy_cls" "build_tf_policy.<locals>.policy_cls"
                kw original_kwargs in
  let policy_cls :=
    PolicyClass (class_setattr "with_updates" (pc_class policy_cls))
                (pc_name policy_cls) (pc_qualname policy_cls)
                (pc_closure policy_cls) (pc_original_kwargs policy_cls) in
  let policy_cls :=
    PolicyClass (pc_class policy_cls) (name kw) (pc_qualname policy_cls)
                (pc_closure policy_cls) (pc_original_kwargs policy_cls) in
  let policy_cls :=
    PolicyClass (pc_class policy_cls) (pc_name policy_cls) (name kw)
                (pc_closure policy_cls) (pc_original_kwargs policy_cls) in
  Returns (st, policy_cls).

(** The static method [with_updates], called with keyword overrides. *)
Definition with_updates (policy_cls : policy_class) (ov : overrides)
    (st : interp) : outcome (interp * policy_class) :=
  build_tf_policy (dict_kwargs (pc_original_kwargs policy_cls) ov) st.

End build.

End Factory.
Export Factory.

(** ** Instances of the produced class *)

Module Instance.

(** Calls that leave the class: the user's callbacks, taken at their
    documented signatures, and the methods of the imported base classes. *)
Inductive ext : Type → Type :=
| call_get_default_config (f : fn) : ext dict
| call_hook (f : fn) (policy obs_space action_space : pyval) (config : dict) : ext unit
| call_postprocess_fn (f : fn)
    (self sample_batch other_agent_batches episode : pyval) : ext pyval
| call_optimizer_fn (f : fn) (self config : pyval) : ext pyval
| call_gradients_fn (f : fn) (self optimizer loss : pyval) : ext pyval
| call_dict_fn (f : fn) (self : pyval) : ext dict
| Policy_postprocess_trajectory
    (self sample_batch other_agent_batches episode : pyval) : ext pyval
| TFPolicy_optimizer (self : pyval) : ext pyval
| TFPolicy_gradients (self optimizer loss : pyval) : ext pyval
| TFPolicy_extra_compute_action_fetches (self : pyval) : ext dict
| TFPolicy_extra_compute_action_feed_dict (self : pyval) : ext dict
| TFPolicy_extra_compute_grad_fetches (self : pyval) : ext dict
| TFPolicy_extra_compute_grad_feed_dict (self : pyval) : ext dict
| DynamicTFPolicy_placeholder_setup
    (self obs_space action_space : pyval) (config : dict)
    (make_action_sampler : option fn) (existing_inputs : pyval)
    (obs_include_prev_action_reward : bool) : ext unit
| DynamicTFPolicy_loss_init
    (self : pyval) (config : dict) (loss_fn : fn)
    (stats_fn grad_stats_fn update_ops_fn : option fn) : ext unit.

(** What an observer of the class sees it do: a call that leaves the class,
    with what the call returned, or an assignment to an attribute of
    [self]. *)
Inductive event :=
| Called {R : Type} (c : ext R) (r : R)
| Assigned (attr : string) (v : pyval).

Section methods.

(** Everything outside the instance's own attributes. *)
Variable W : Type.

Record world := World { self_dict : gmap string pyval; outside : W }.

(** The behaviour of the code outside this file.  It is handed [self], so
    it may change the instance's attributes as well.  Outside calls are
    taken to return: a callback that raises ends the method that called
    it, and the properties below are about calls that return. *)
Variable extern : ∀ R, ext R → world → world * R.

(** [LEARNER_STATS_KEY], imported from [policy]. *)
Variable LEARNER_STATS_KEY : string.

Definition M (R : Type) : Type := world → list event * outcome (world * R).

#[local] Instance M_ret : MRet M := λ R r w, ([], Returns (w, r)).

#[local] Instance M_bind : MBind M := λ A B k m w,
  match m w with
  | (l1, Returns (w1, a)) => let '(l2, o) := k a w1 in (l1 ++ l2, o)
  | (l1, Raises e) => (l1, Raises e)
  end.

Definition raise {R} (e : exn) : M R := λ w, ([], Raises e).

Definition call {R} (c : ext R) : M R := λ w,
  let '(w1, r) := extern R c w in ([Called c r], Returns (w1, r)).

(** [self.attr] *)
Definition getattr (attr : string) : M pyval := λ w,
  match self_dict w !! attr with
  | Some v => ([], Returns (w, v))
  | None => ([], Raises AttributeError)
  end.

(** [self.attr = v] *)
Definition setattr (attr : string) (v : pyval) : M unit := λ w,
  ([Assigned attr v], Returns (World (<[attr := v]> (self_dict w)) (outside w), ())).

(** The mapping unpacked by [**v]. *)
Definition as_kwargs (v : pyval) : M dict :=
  match v with
  | PyDict d => mret d
  | _ => raise TypeError
  end.

(** Modelled from the spec: [DynamicTFPolicy.__init__], whose source is not
    under src/.  Core initialization is handed the loss, stats and
    update-ops callbacks and runs the pre-loss-init hook it is given, once,
    between placeholder setup and loss initialization (the order the
    factory's docstring gives: placeholder setup, then loss init, with
    [before_loss_init] run prior to loss init). *)
Definition DynamicTFPolicy___init__
    (self obs_space action_space : pyval) (config : dict) (loss_fn : fn)
    (stats_fn grad_stats_fn update_ops_fn : option fn)
    (before_loss_init : pyval → pyval → pyval → dict → M unit)
    (make_action_sampler : option fn) (existing_inputs : pyval)
    (obs_include_prev_action_reward : bool) : M unit :=
  call (DynamicTFPolicy_placeholder_setup self obs_space action_space config
          make_action_sampler existing_inputs obs_include_prev_action_reward);;
  before_loss_init self obs_space action_space config;;
  call (DynamicTFPolicy_loss_init self config loss_fn
          stats_fn grad_stats_fn update_ops_fn).

(** The methods of [policy_cls], closed over the factory's parameters. *)
Variable policy_cls : policy_class.

#[local] Abbreviation kw := (pc_closure policy_cls).

Definition __init__ (self obs_space action_space : pyval) (config : dict)
    (existing_inputs : pyval) : M unit :=
  config ←
    match get_default_config kw with
    | Some get_default_config =>
        default_config ← call (call_get_default_config get_default_config);
        mret (py_dict default_config config)
    | None => mret config
    end;
  match before_init kw with
  | Some before_init => call (call_hook before_init self obs_space action_space config)
  | None => mret ()
  end;;
  let before_loss_init_wrapper (policy obs_space action_space : pyval)
        (config : dict) : M unit :=
    match before_loss_init kw with
    | Some before_loss_init =>
        call (call_hook before_loss_init policy obs_space action_space config)
    | None => mret ()
    end;;
    match extra_action_fetches_fn kw with
    | None => setattr "_extra_action_fetches" (PyDict ∅)
    | Some extra_action_fetches_fn =>
        fetches ← call (call_dict_fn extra_action_fetches_fn self);
        setattr "_extra_action_fetches" (PyDict fetches)
    end in
  DynamicTFPolicy___init__ self obs_space action_space config (loss_fn kw)
    (stats_fn kw) (grad_stats_fn kw) (update_ops_fn kw)
    before_loss_init_wrapper (make_action_sampler kw) existing_inputs
    (obs_include_prev_action_reward kw);;
  match after_init kw with
  | Some after_init => call (call_hook after_init self obs_space action_space config)
  | None => mret ()
  end.

Definition postprocess_trajectory
    (self sample_batch other_agent_batches episode : pyval) : M pyval :=
  match postprocess_fn kw with
  | None => mret sample_batch
  | Some postprocess_fn =>
      call (call_postprocess_fn postprocess_fn self sample_batch
              other_agent_batches episode)
  end.

Definition optimizer (self : pyval) : M pyval :=
  match optimizer_fn kw with
  | Some optimizer_fn =>
      config ← getattr "config";
      call (call_optimizer_fn optimizer_fn self config)
  | None => call (TFPolicy_optimizer self)
  end.

Definition gradients (self optimizer loss : pyval) : M pyval :=
  match gradients_fn kw with
  | Some gradients_fn => call (call_gradients_fn gradients_fn self optimizer loss)
  | None => call (TFPolicy_gradients self optimizer loss)
  end.

Definition extra_compute_action_fetches (self : pyval) : M dict :=
  base_fetches ← call (TFPolicy_extra_compute_action_fetches self);
  extra ← getattr "_extra_action_fetches";
  extra ← as_kwargs extra;
  mret (py_dict base_fetches extra).

Definition extra_compute_action_feed_dict (self : pyval) : M dict :=
  match extra_action_feed_fn kw with
  | Some extra_action_feed_fn => call (call_dict_fn extra_action_feed_fn self)
  | None => call (TFPolicy_extra_compute_action_feed_dict self)
  end.

Definition extra_compute_grad_fetches (self : pyval) : M dict :=
  match extra_learn_fetches_fn kw with
  | Some extra_learn_fetches_fn =>
      fetches ← call (call_dict_fn extra_learn_fetches_fn self);
      mret (py_dict {[ LEARNER_STATS_KEY := PyDict ∅ ]} fetches)
  | None => call (TFPolicy_extra_compute_grad_fetches self)
  end.

Definition extra_compute_grad_feed_dict (self : pyval) : M dict :=
  match extra_learn_feed_fn kw with
  | Some extra_learn_feed_fn => call (call_dict_fn extra_learn_feed_fn self)
  | None => call (TFPolicy_extra_compute_grad_feed_dict self)
  end.

End methods.

Arguments World {W}.
Arguments self_dict {W}.
Arguments outside {W}.
Arguments call {W} extern {R}.
Arguments getattr {W}.
Arguments setattr {W}.
Arguments __init__ {W}.
Arguments postprocess_trajectory {W}.
Arguments optimizer {W}.
Arguments gradients {W}.
Arguments extra_compute_action_fetches {W}.
Arguments extra_compute_action_feed_dict {W}.
Arguments extra_compute_grad_fetches {W}.
Arguments extra_compute_grad_feed_dict {W}.


(** The configuration an event hands to a hook or to core initialization. *)
Definition config_of (e : event) : option dict :=
  match e with
  | Called (call_hook _ _ _ _ config) _ => Some config
  | Called (DynamicTFPolicy_placeholder_setup _ _ _ config _ _ _) _ => Some config
  | Called (DynamicTFPolicy_loss_init _ config _ _ _ _) _ => Some config
  | _ => None
  end.

End Instance.
Export Instance.

(** ** Notions the properties are stated with *)

Module Props.

(** The classes of the inheritance chain that contribute attributes: the
    ancestors of the produced class, without the bodiless [new_base]
    classes the factory interposes. *)
Definition effective_bases (c : policy_class) : list class_body :=
  List.filter (λ b, negb (bool_decide (cdict b = ∅))) (cls_ancestors (pc_class c)).

(** Two produced classes that cannot be told apart by their names, by the
    callbacks and settings their methods use, or by what they inherit. *)
Definition behaviourally_identical (c1 c2 : policy_class) : Prop :=
  pc_name c1 = pc_name c2 ∧
  pc_qualname c1 = pc_qualname c2 ∧
  pc_closure c1 = pc_closure c2 ∧
  cdict (cls_body (pc_class c1)) = cdict (cls_body (pc_class c2)) ∧
  effective_bases c1 = effective_bases c2.


(** Events of an optional hook call. *)
Definition hook_events (hook : option fn) (policy obs_space action_space : pyval)
    (config : dict) : list event :=
  match hook with
  | Some f => [Called (call_hook f policy obs_space action_space config) ()]
  | None => []
  end.

(** The configuration a constructor call goes on with, given the default
    configuration (if one is asked for) and the caller's. *)
Definition used_config (kw : kwargs) (default_config config : dict) : dict :=
  match get_default_config kw with
  | Some _ => py_dict default_config config
  | None => config
  end.

(** The order of initialization as the description has it: the default
    configuration is fetched, then [before_init] runs on the merged
    configuration, then core initialization, within which
    [before_loss_init] runs and the extra action fetches are stored, then
    [after_init]; a hook that is not given leaves no event. *)
Definition init_events (kw : kwargs) (self obs_space action_space : pyval)
    (config : dict) (existing_inputs : pyval) (default_config fetches : dict)
  : list event :=
  let used := used_config kw default_config config in
  match get_default_config kw with
  | Some f => [Called (call_get_default_config f) default_config]
  | None => []
  end ++
  hook_events (before_init kw) self obs_space action_space used ++
  [Called (DynamicTFPolicy_placeholder_setup self obs_space action_space used
             (make_action_sampler kw) existing_inputs
             (obs_include_prev_action_reward kw)) ()] ++
  hook_events (before_loss_init kw) self obs_space action_space used ++
  match extra_action_fetches_fn kw with
  | Some f => [Called (call_dict_fn f self) fetches]
  | None => []
  end ++
  [Assigned "_extra_action_fetches" (PyDict fetches)] ++
  [Called (DynamicTFPolicy_loss_init self used (loss_fn kw) (stats_fn kw)
             (grad_stats_fn kw) (update_ops_fn kw)) ()] ++
  hook_events (after_init kw) self obs_space action_space used.

(** The linearisation the loop arrives at for mixins that derive from
    [object] alone: each mixin follows the bodiless class made for it, the
    first mixin of the list outermost, and the base's linearisation comes
    last.  [first_id] is the identity of the first class the loop makes. *)
Fixpoint plain_chain (first_id : nat) (ms : list pyclass)
    (base_mro : list class_body) : list class_body :=
  match ms with
  | [] => base_mro
  | M :: rest =>
      ClassBody (first_id + length rest) ∅ :: cls_body M
        :: plain_chain first_id rest base_mro
  end.

(** The class object and attributes of a class the factory returns: the
    class statement's body with [with_updates] added, the given identity
    and ancestors, both names set to [name], and the arguments closed
    over. *)
Definition produced_class (id : nat) (ancestors : list class_body)
    (kw : kwargs) : policy_class :=
  PolicyClass
    (PyClass (ClassBody id ({[ "with_updates" ]} ∪ policy_cls_body)) ancestors)
    (name kw) (name kw) kw kw.

(** Keyword overrides that set [get_batch_divisibility_req] and nothing
    else. *)
Definition only_get_batch_divisibility_req (v : option fn) : overrides :=
  Args (F := option) None None None None None None None None None None None
       None None None None None None None (Some v) None.

(** Outside code that never changes a given attribute of the instance. *)
Definition leaves_attr {W} (extern : ∀ R, ext R → world W → world W * R)
    (attr : string) : Prop :=
  ∀ R (c : ext R) w, self_dict (extern R c w).1 !! attr = self_dict w !! attr.

End Props.
Export Props.

(** ** Sample inputs *)

Module Sample.

(** A base-class chain shaped like the imported one:
    [DynamicTFPolicy(TFPolicy)], [TFPolicy(Policy)], [Policy(object)]. *)
Definition object_body : class_body :=
  ClassBody 0 (list_to_set ["__init__"; "__repr__"]).
Definition Policy_body : class_body :=
  ClassBody 1 (list_to_set ["__init__"; "postprocess_trajectory"; "on_global_var_update"]).
Definition TFPolicy_body : class_body :=
  ClassBody 2 (list_to_set
    ["__init__"; "optimizer"; "gradients"; "extra_compute_action_fetches";
     "extra_compute_action_feed_dict"; "extra_compute_grad_fetches";
     "extra_compute_grad_feed_dict"]).
Definition DynamicTFPolicy_body : class_body :=
  ClassBody 3 (list_to_set ["__init__"; "copy"]).
Definition DynamicTFPolicy : pyclass :=
  PyClass DynamicTFPolicy_body [TFPolicy_body; Policy_body; object_body].

(** Two mixins deriving from [object]: one that schedules the learning rate
    and so defines [optimizer] and [on_global_var_update], one that adds a
    method of its own. *)
Definition schedule_mixin : pyclass :=
  PyClass (ClassBody 10 (list_to_set ["optimizer"; "on_global_var_update"])) [object_body].
Definition value_mixin : pyclass :=
  PyClass (ClassBody 11 (list_to_set ["on_global_var_update"; "value"])) [object_body].

(** The caller's list [[schedule_mixin, value_mixin]] is the object at 0. *)
Definition mixin_list : loc := 0.
Definition st0 : interp := Interp {[ mixin_list := [schedule_mixin; value_mixin] ]} 100.

Definition loss : fn := Fn 0.
Definition learn_fetches : fn := Fn 1.
Definition action_fetches : fn := Fn 2.
Definition default_config_fn : fn := Fn 3.
Definition setup_hook : fn := Fn 4.

(** [build_tf_policy("P", loss, mixins=[schedule_mixin, value_mixin])] *)
Definition kw_mixins : kwargs :=
  Args (F := Given) "P" loss None None None None None None None None None
       None None None None None None (Some mixin_list) None true.

(** [build_tf_policy("P", loss, get_default_config=default_config_fn,
    extra_action_fetches_fn=action_fetches,
    extra_learn_fetches_fn=learn_fetches, before_init=setup_hook)] *)
Definition kw_callbacks : kwargs :=
  Args (F := Given) "P" loss (Some default_config_fn) None None None None None None
       (Some action_fetches) None (Some learn_fetches) None (Some setup_hook)
       None None None None None true.

Definition LEARNER_STATS_KEY : string := "learner_stats".

(** Outside code that does nothing observable: base-class defaults return
    empty dictionaries, the default trajectory postprocessing returns the
    batch it is given, and the callbacks return empty results. *)
Definition quiet (R : Type) (c : ext R) (w : world unit) : world unit * R :=
  match c in ext R return world unit * R with
  | call_get_default_config _ => (w, {[ "lr" := PyObj 1; "gamma" := PyObj 2 ]})
  | call_hook _ _ _ _ _ => (w, ())
  | call_postprocess_fn _ _ _ _ _ => (w, PyNone)
  | call_optimizer_fn _ _ _ => (w, PyNone)
  | call_gradients_fn _ _ _ _ => (w, PyNone)
  | call_dict_fn _ _ => (w, ∅)
  | Policy_postprocess_trajectory _ sample_batch _ _ => (w, sample_batch)
  | TFPolicy_optimizer _ => (w, PyObj 7)
  | TFPolicy_gradients _ _ _ => (w, PyObj 8)
  | TFPolicy_extra_compute_action_fetches _ => (w, {[ "action_prob" := PyObj 9 ]})
  | TFPolicy_extra_compute_action_feed_dict _ => (w, ∅)
  | TFPolicy_extra_compute_grad_fetches _ => (w, {[ LEARNER_STATS_KEY := PyDict ∅ ]})
  | TFPolicy_extra_compute_grad_feed_dict _ => (w, ∅)
  | DynamicTFPolicy_placeholder_setup _ _ _ config _ _ _ =>
      (World (<[ "config" := PyDict config ]> (self_dict w)) (outside w), ())
  | DynamicTFPolicy_loss_init _ _ _ _ _ _ => (w, ())
  end.

Definition w0 : world unit := World ∅ ().
Definition self0 : pyval := PyObj 50.
Definition obs : pyval := PyObj 20.
Definition act : pyval := PyObj 21.
Definition batch : pyval := PyObj 22.
Definition caller_config : dict := {[ "lr" := PyObj 5 ]}.

(** A second list object, beside the caller's mixin list. *)
Definition st_two : interp :=
  Interp {[ mixin_list := [schedule_mixin; value_mixin]; 1 := [value_mixin] ]} 100.

(** An instance that has [_extra_action_fetches] stored. *)
Definition w_stored : world unit :=
  World {[ "_extra_action_fetches" :=
             PyDict {[ "action_prob" := PyObj 30; "vf_preds" := PyObj 31 ]} ]} ().

(** A caller's list that names the same mixin twice. *)
Definition st_twice : interp :=
  Interp {[ mixin_list := [schedule_mixin; schedule_mixin] ]} 100.


(** [name="Q", optimizer_fn=learn_fetches] as keyword overrides. *)
Definition ov_name_optimizer : overrides :=
  Args (F := option) (Some "Q") None None None None None (Some (Some learn_fetches))
       None None None None None None None None None None None None None.

(** [build_tf_policy("P", loss, optimizer_fn=setup_hook)] *)
Definition kw_optimizer : kwargs :=
  Args (F := Given) "P" loss None None None None (Some setup_hook) None None
       None None None None None None None None None None true.

(** The class the factory returns for [kw] from state [st], if it does. *)
Definition produced (kw : kwargs) (st : interp) : option (interp * policy_class) :=
  match build_tf_policy DynamicTFPolicy kw st with
  | Returns r => Some r
  | Raises _ => None
  end.

End Sample.

(** * Facts about the linearisation *)

Section c3_facts.

Implicit Types (c b : class_body) (s : list class_body)
  (seqs live : list (list class_body)).

Lemma live_elem seqs s : s ∈ List.filter nonempty seqs ↔ s ∈ seqs ∧ s ≠ [].
Proof.
  rewrite !list_elem_of_In, filter_In. destruct s; simpl; split; intros [? ?]; split; auto; congruence.
Qed.

Lemma candidate_head live c :
  candidate live = Some c → ∃ s, s ∈ live ∧ head s = Some c.
Proof.
  unfold candidate. intros [Hin _]%find_some.
  apply list_elem_of_In, list_elem_of_omap in Hin. exact Hin.
Qed.

Lemma candidate_not_in_tail live c s :
  candidate live = Some c → s ∈ live → c ∉ tail s.
Proof.
  unfold candidate. intros [_ Hneg]%find_some Hs Hc.
  apply negb_true_iff in Hneg. unfold in_some_tail in Hneg.
  assert (existsb (λ s, bool_decide (c ∈ tail s)) live = true) as Hex; [|congruence].
  apply existsb_exists. exists s. split; [by apply list_elem_of_In|by apply bool_decide_eq_true_2].
Qed.

Lemma drop_head_elem c b s : b ∈ drop_head c s → b ∈ s.
Proof.
  destruct s as [|x s]; simpl; [done|]. case_decide; [|done]. apply list_elem_of_further.
Qed.

Lemma drop_head_candidate live c s :
  candidate live = Some c → s ∈ live → c ∉ drop_head c s.
Proof.
  intros Hc Hs. pose proof (candidate_not_in_tail _ _ _ Hc Hs) as Ht.
  destruct s as [|x s]; simpl in *; [apply not_elem_of_nil|].
  case_decide; [done|]. intros [?|?]%elem_of_cons; congruence.
Qed.

Lemma drop_head_sublist c s r : drop_head c s `sublist_of` r → s `sublist_of` c :: r.
Proof.
  destruct s as [|x s]; simpl; [intros; apply sublist_nil_l|].
  case_decide; subst; intros; by constructor.
Qed.

(** One step of the merge, spelled out. *)
Lemma c3_merge_step n seqs r :
  c3_merge n seqs = Returns r →
  (List.filter nonempty seqs = [] ∧ r = []) ∨
  ∃ m c r', n = S m ∧ candidate (List.filter nonempty seqs) = Some c ∧
            c3_merge m (map (drop_head c) (List.filter nonempty seqs)) = Returns r' ∧
            r = c :: r'.
Proof.
  destruct n as [|m]; simpl; destruct (List.filter nonempty seqs) as [|s0 live] eqn:Hlive.
  - intros [= <-]. by left.
  - done.
  - intros [= <-]. by left.
  - destruct (candidate (s0 :: live)) as [c|] eqn:Hc; [|done].
    destruct (c3_merge m _) as [r'|] eqn:Hr; simpl; [|done].
    intros [= <-]. right. by exists m, c, r'.
Qed.

Lemma live_nil seqs s : List.filter nonempty seqs = [] → s ∈ seqs → s = [].
Proof.
  intros Hlive Hs. destruct (decide (s = [])) as [|Hne]; [done|].
  assert (s ∈ List.filter nonempty seqs) as Hin by by apply live_elem.
  rewrite Hlive in Hin. by apply elem_of_nil in Hin.
Qed.

(** The merge keeps the order of every sequence it is given. *)
Lemma c3_merge_sublist n seqs r s :
  c3_merge n seqs = Returns r → s ∈ seqs → s `sublist_of` r.
Proof.
  revert seqs r s. induction n as [|n IH]; intros seqs r s Hm Hs;
    apply c3_merge_step in Hm as [[Hlive ->]|(m & c & r' & Hn & Hc & Hr & ->)]; try done.
  - by rewrite (live_nil _ _ Hlive Hs).
  - by rewrite (live_nil _ _ Hlive Hs).
  - injection Hn as <-. destruct (decide (s = [])) as [->|Hne]; [apply sublist_nil_l|].
    apply drop_head_sublist, (IH _ _ _ Hr).
    apply list_elem_of_fmap. exists s. split; [done|]. by apply live_elem.
Qed.

(** The merge invents nothing. *)
Lemma c3_merge_elem n seqs r b :
  c3_merge n seqs = Returns r → b ∈ r → ∃ s, s ∈ seqs ∧ b ∈ s.
Proof.
  revert seqs r. induction n as [|n IH]; intros seqs r Hm Hb;
    apply c3_merge_step in Hm as [[Hlive ->]|(m & c & r' & Hn & Hc & Hr & ->)];
    try done; try by apply elem_of_nil in Hb.
  injection Hn as <-. apply elem_of_cons in Hb as [->|Hb].
  - destruct (candidate_head _ _ Hc) as (s & [Hs _]%live_elem & Hhd).
    exists s. split; [done|]. destruct s; simplify_eq/=. apply list_elem_of_here.
  - destruct (IH _ _ Hr Hb) as (s' & Hs' & Hbs').
    apply list_elem_of_fmap in Hs' as (s & -> & [Hs _]%live_elem).
    exists s. eauto using drop_head_elem.
Qed.

(** A merge that succeeds yields every class once. *)
Lemma c3_merge_NoDup n seqs r : c3_merge n seqs = Returns r → NoDup r.
Proof.
  revert seqs r. induction n as [|n IH]; intros seqs r Hm;
    apply c3_merge_step in Hm as [[Hlive ->]|(m & c & r' & Hn & Hc & Hr & ->)];
    try done; try apply NoDup_nil_2.
  injection Hn as <-. apply NoDup_cons. split; [|by eapply IH].
  intros Hin. destruct (c3_merge_elem _ _ _ _ Hr Hin) as (s' & Hs' & Hcs').
  apply list_elem_of_fmap in Hs' as (s & -> & Hs).
  by eapply drop_head_candidate.
Qed.

(** The fuel [class_stmt] gives the merge is enough. *)
Lemma total_length_live seqs :
  total_length (List.filter nonempty seqs) = total_length seqs.
Proof. induction seqs as [|[|x s] seqs IH]; simpl; auto. Qed.

Lemma total_length_drop c live :
  total_length (map (drop_head c) live) ≤ total_length live.
Proof.
  induction live as [|s live IH]; simpl; [done|].
  destruct s as [|x s]; simpl; [done|]. case_decide; simpl; lia.
Qed.

Lemma total_length_drop_head c live s :
  s ∈ live → head s = Some c →
  total_length (map (drop_head c) live) < total_length live.
Proof.
  induction 1 as [s live|s s' live Hin IH]; intros Hhd; simpl.
  - destruct s as [|x s]; simplify_eq/=. pose proof (total_length_drop c live).
    case_decide; [lia|done].
  - specialize (IH Hhd). destruct s' as [|x s']; simpl; [done|]. case_decide; simpl; lia.
Qed.

Lemma c3_merge_fuel n seqs :
  total_length seqs ≤ n → c3_merge n seqs ≠ Raises OutOfFuel.
Proof.
  revert seqs. induction n as [|n IH]; intros seqs Hlen; simpl;
    pose proof (total_length_live seqs) as Hlive;
    destruct (List.filter nonempty seqs) as [|s0 live] eqn:Hl; try done.
  - assert (s0 ∈ List.filter nonempty seqs) as [_ Hne]%live_elem
      by (rewrite Hl; apply list_elem_of_here).
    destruct s0; simpl in *; [done|lia].
  - destruct (candidate (s0 :: live)) as [c|] eqn:Hc; [|done].
    destruct (candidate_head _ _ Hc) as (s & Hs & Hhd).
    pose proof (total_length_drop_head _ _ _ Hs Hhd) as Hlt.
    specialize (IH (map (drop_head c) (s0 :: live))). simpl map in IH.
    destruct (c3_merge n _) as [r|e]; simpl; [done|].
    intros [= ->]. apply IH; [|done]. simpl map in Hlt. lia.
Qed.

End c3_facts.

(** * Facts about the factory *)

Section factory_facts.

Variable DynamicTFPolicy : pyclass.

Implicit Types (st : interp) (l : loc) (ms : list pyclass) (base : pyclass).

Lemma class_stmt_returns id body bases c :
  class_stmt id body bases = Returns c →
  cls_body c = ClassBody id body ∧
  ∃ n, c3_merge n (map mro bases ++ [map cls_body bases]) = Returns (cls_ancestors c).
Proof.
  unfold class_stmt. destruct (c3_merge _ _) as [anc|] eqn:Hm; simpl; [|done].
  intros [= <-]. eauto.
Qed.

Lemma class_stmt_fuel id body bases : class_stmt id body bases ≠ Raises OutOfFuel.
Proof.
  unfold class_stmt.
  pose proof (c3_merge_fuel (total_length (map mro bases ++ [map cls_body bases]))
                (map mro bases ++ [map cls_body bases])) as Hf.
  destruct (c3_merge _ _) as [anc|e]; simpl; [done|].
  intros [= ->]. by apply Hf.
Qed.

Lemma c3_merge_raises n seqs e :
  c3_merge n seqs = Raises e → e = TypeError ∨ e = OutOfFuel.
Proof.
  revert seqs. induction n as [|n IH]; intros seqs; simpl;
    destruct (List.filter nonempty seqs) as [|s0 live]; try done.
  - intros [= <-]. by right.
  - destruct (candidate (s0 :: live)) as [c|]; [|intros [= <-]; by left].
    specialize (IH (drop_head c s0 :: map (drop_head c) live)).
    destruct (c3_merge n _) as [r|e']; simpl; [done|]. intros [= <-]. by apply IH.
Qed.

Lemma class_stmt_outcomes id body bases :
  (∃ c, class_stmt id body bases = Returns c) ∨ class_stmt id body bases = Raises TypeError.
Proof.
  pose proof (class_stmt_fuel id body bases) as Hf. revert Hf. unfold class_stmt.
  destruct (c3_merge _ _) as [r|e] eqn:Hm; simpl; [eauto|].
  intros Hf. right. by destruct (c3_merge_raises _ _ _ Hm) as [->| ->].
Qed.

(** The loop, one iteration at a time. *)
Lemma while_mixins_None n base st : while_mixins n None base st = Returns (st, base).
Proof. by destruct n. Qed.

Lemma while_mixins_done n l base st :
  lists st !! l = Some [] → while_mixins n (Some l) base st = Returns (st, base).
Proof. intros Hl. destruct n; simpl; by rewrite Hl. Qed.

Lemma while_mixins_iter n l base st ms popped :
  lists st !! l = Some (ms ++ [popped]) →
  while_mixins (S n) (Some l) base st =
    let* new_base := class_stmt (next_cid st) ∅ [popped; base] in
    while_mixins n (Some l) new_base (fresh_cid (set_list l ms st)).
Proof.
  intros Hl. simpl. unfold list_pop. rewrite Hl. simpl.
  replace (nonempty (ms ++ [popped])) with true by by destruct ms.
  simpl. rewrite last_snoc, removelast_last. done.
Qed.

Lemma while_mixins_stop l base st ms popped :
  lists st !! l = Some (ms ++ [popped]) →
  while_mixins 0 (Some l) base st = Raises OutOfFuel.
Proof. intros Hl. simpl. rewrite Hl. simpl. by destruct ms. Qed.

Lemma snoc_cases {A} (xs : list A) : xs = [] ∨ ∃ ys y, xs = ys ++ [y].
Proof.
  destruct (last xs) as [y|] eqn:Hlast.
  - right. apply last_Some in Hlast as [ys ->]. eauto.
  - left. by apply last_None.
Qed.

Lemma lookup_set_list l ms st : lists (fresh_cid (set_list l ms st)) !! l = Some ms.
Proof. simpl. apply lookup_insert_eq. Qed.

(** When the loop is over, the list object it popped from is empty. *)
Lemma while_mixins_empties n l base st st' b :
  while_mixins n (Some l) base st = Returns (st', b) → lists st' !! l = Some [].
Proof.
  revert base st. induction n as [|n IH]; intros base st.
  - simpl. destruct (lists st !! l) as [ms|] eqn:Hl; simpl; [|done].
    destruct ms; simpl; [|done]. by intros [= <- <-].
  - destruct (lists st !! l) as [ms|] eqn:Hl; [|by simpl; rewrite Hl].
    destruct (snoc_cases ms) as [->|(ms' & popped & ->)].
    + rewrite (while_mixins_done _ _ _ _ Hl). by intros [= <- <-].
    + rewrite (while_mixins_iter _ _ _ _ _ _ Hl).
      destruct (class_stmt _ _ _) as [nb|]; simpl; [|done]. apply IH.
Qed.

(** The loop leaves every other list object alone. *)
Lemma while_mixins_frame n l base st st' b l' :
  while_mixins n (Some l) base st = Returns (st', b) → l' ≠ l →
  lists st' !! l' = lists st !! l'.
Proof.
  revert base st. induction n as [|n IH]; intros base st Hw Hne.
  - simpl in Hw. destruct (lists st !! l) as [ms|] eqn:Hl; simpl in Hw; [|done].
    destruct ms; simpl in Hw; [|done]. by injection Hw as <- <-.
  - destruct (lists st !! l) as [ms|] eqn:Hl; [|by simpl in Hw; rewrite Hl in Hw].
    destruct (snoc_cases ms) as [->|(ms' & popped & ->)].
    + rewrite (while_mixins_done _ _ _ _ Hl) in Hw. by injection Hw as <- <-.
    + rewrite (while_mixins_iter _ _ _ _ _ _ Hl) in Hw.
      destruct (class_stmt _ _ _) as [nb|]; simpl in Hw; [|done].
      rewrite (IH _ _ Hw Hne). simpl. by rewrite lookup_insert_ne.
Qed.

(** The fuel [build_tf_policy] gives the loop is enough. *)
Lemma while_mixins_fuel n mixins base st :
  mixins_length mixins st ≤ n → while_mixins n mixins base st ≠ Raises OutOfFuel.
Proof.
  destruct mixins as [l|]; [|by rewrite while_mixins_None].
  revert base st. induction n as [|n IH]; intros base st Hlen;
    unfold mixins_length in Hlen;
    (destruct (lists st !! l) as [ms|] eqn:Hl; [|by simpl; rewrite Hl]);
    simpl in Hlen; destruct (snoc_cases ms) as [->|(ms' & popped & ->)];
    try (by rewrite (while_mixins_done _ _ _ _ Hl)).
  - rewrite length_app in Hlen. simpl in Hlen. lia.
  - rewrite length_app in Hlen. simpl in Hlen.
    rewrite (while_mixins_iter _ _ _ _ _ _ Hl).
    pose proof (class_stmt_fuel (next_cid st) ∅ [popped; base]) as Hf.
    destruct (class_stmt _ _ _) as [nb|e]; simpl; [|congruence].
    apply IH. unfold mixins_length. rewrite lookup_set_list. simpl. lia.
Qed.

Lemma while_mixins_outcomes n mixins base st :
  (∀ l, mixins = Some l → is_Some (lists st !! l)) →
  mixins_length mixins st ≤ n →
  (∃ r, while_mixins n mixins base st = Returns r) ∨
  while_mixins n mixins base st = Raises TypeError.
Proof.
  destruct mixins as [l|]; [|rewrite while_mixins_None; eauto].
  intros Hl. destruct (Hl l eq_refl) as [ms Hms]. clear Hl.
  revert base st ms Hms. induction n as [|n IH]; intros base st ms Hl Hlen;
    unfold mixins_length in Hlen; rewrite Hl in Hlen; simpl in Hlen;
    destruct (snoc_cases ms) as [->|(ms' & popped & ->)];
    try (rewrite (while_mixins_done _ _ _ _ Hl); by eauto).
  - rewrite length_app in Hlen. simpl in Hlen. lia.
  - rewrite length_app in Hlen. simpl in Hlen.
    rewrite (while_mixins_iter _ _ _ _ _ _ Hl).
    destruct (class_stmt_outcomes (next_cid st) ∅ [popped; base]) as [[nb ->]| ->];
      simpl; [|by right].
    apply (IH _ _ ms'); [apply lookup_set_list|].
    unfold mixins_length. rewrite lookup_set_list. simpl. lia.
Qed.

(** The factory either returns a class or fails in a class statement. *)
Lemma build_tf_policy_outcomes kw st :
  (∀ l, mixins kw = Some l → is_Some (lists st !! l)) →
  (∃ r, build_tf_policy DynamicTFPolicy kw st = Returns r) ∨
  build_tf_policy DynamicTFPolicy kw st = Raises TypeError.
Proof.
  intros Hl. unfold build_tf_policy.
  destruct (while_mixins_outcomes (mixins_length (mixins kw) st) (mixins kw)
              DynamicTFPolicy st Hl) as [[[st1 base] ->]| ->]; [done| |by right].
  simpl. destruct (class_stmt_outcomes (next_cid st1) policy_cls_body [base])
    as [[cls ->]| ->]; simpl; eauto.
Qed.

(** What a returned class is made of. *)
Lemma build_tf_policy_returns kw st st' cls :
  build_tf_policy DynamicTFPolicy kw st = Returns (st', cls) →
  ∃ st1 base c,
    while_mixins (mixins_length (mixins kw) st) (mixins kw) DynamicTFPolicy st
      = Returns (st1, base) ∧
    class_stmt (next_cid st1) policy_cls_body [base] = Returns c ∧
    st' = fresh_cid st1 ∧
    cls = PolicyClass (class_setattr "with_updates" c) (name kw) (name kw) kw kw.
Proof.
  unfold build_tf_policy.
  destruct (while_mixins _ _ _ _) as [[st1 base]|] eqn:Hw; simpl; [|done].
  destruct (class_stmt _ _ _) as [c|] eqn:Hc; simpl; [|done].
  intros [= <- <-]. by exists st1, base, c.
Qed.

End factory_facts.

(** * Order in the method resolution order *)

Section precedence.

Implicit Types (x y z b : class_body) (r : list class_body).

(** [[x; y] `sublist_of` r] reads: [x] comes before [y] in [r]. *)
Lemma before_cons x y b r :
  [x; y] `sublist_of` b :: r ↔ (b = x ∧ y ∈ r) ∨ [x; y] `sublist_of` r.
Proof.
  rewrite sublist_cons_r. split.
  - intros [?|(l' & [= <- <-] & Hy)]; [by right|left].
    split; [done|]. by apply singleton_sublist_l.
  - intros [[-> Hy]|?]; [right|by left].
    eexists. split; [done|]. by apply singleton_sublist_l.
Qed.

Lemma before_elem_l x y r : [x; y] `sublist_of` r → x ∈ r.
Proof. intros H. eapply elem_of_sublist; [|exact H]. apply list_elem_of_here. Qed.

Lemma before_elem_r x y r : [x; y] `sublist_of` r → y ∈ r.
Proof.
  intros H. eapply elem_of_sublist; [|exact H]. apply list_elem_of_further, list_elem_of_here.
Qed.

Lemma before_trans x y z r :
  NoDup r → [x; y] `sublist_of` r → [y; z] `sublist_of` r → [x; z] `sublist_of` r.
Proof.
  induction 1 as [|b r Hb Hr IH]; [by intros ?%sublist_nil_r|].
  rewrite !before_cons. intros [[-> Hy]|Hxy] [[Heq Hz]|Hyz].
  - subst. done.
  - left. split; [done|]. by eapply before_elem_r.
  - subst. destruct Hb. by eapply before_elem_r.
  - right. by apply IH.
Qed.

Lemma before_irrefl x r : NoDup r → ¬ [x; x] `sublist_of` r.
Proof.
  intros Hr Hx. pose proof (sublist_NoDup _ _ Hr Hx) as Hd.
  apply NoDup_cons in Hd as [Hd _]. apply Hd, list_elem_of_here.
Qed.


Lemma find_elem (f : class_body → bool) r x : find f r = Some x → x ∈ r ∧ f x = true.
Proof. intros [Hin Hf]%find_some. split; [by apply list_elem_of_In|done]. Qed.

End precedence.

Section mixin_order.

Variable DynamicTFPolicy : pyclass.

Implicit Types (st : interp) (l : loc) (ms : list pyclass) (base : pyclass).

(** A class statement with two bases puts the first base before the second
    and keeps the linearisation of the second. *)
Lemma new_base_mro id mixin base nb :
  class_stmt id ∅ [mixin; base] = Returns nb →
  NoDup (cls_ancestors nb) ∧
  mro base `sublist_of` cls_ancestors nb ∧
  [cls_body mixin; cls_body base] `sublist_of` cls_ancestors nb ∧
  cdict (cls_body nb) = ∅ ∧
  ∀ x, x ∈ cls_ancestors nb → x ∈ mro mixin ∨ x ∈ mro base.
Proof.
  intros (Hbody & n & Hm)%class_stmt_returns. simpl in Hm. split_and!.
  - by eapply c3_merge_NoDup.
  - eapply c3_merge_sublist; [exact Hm|]. apply list_elem_of_further, list_elem_of_here.
  - eapply c3_merge_sublist; [exact Hm|]. do 2 apply list_elem_of_further. apply list_elem_of_here.
  - by rewrite Hbody.
  - intros x Hx. destruct (c3_merge_elem _ _ _ _ Hm Hx) as (s & Hs & Hxs).
    repeat (apply elem_of_cons in Hs as [->|Hs]); auto.
    + repeat (apply elem_of_cons in Hxs as [->|Hxs]).
      * left. apply list_elem_of_here.
      * right. apply list_elem_of_here.
      * by apply elem_of_nil in Hxs.
    + by apply elem_of_nil in Hs.
Qed.

(** A class statement with one base keeps the linearisation of the base. *)
Lemma single_base_mro id body base c :
  class_stmt id body [base] = Returns c →
  NoDup (cls_ancestors c) ∧
  mro base `sublist_of` cls_ancestors c ∧
  cls_body c = ClassBody id body ∧
  ∀ x, x ∈ cls_ancestors c → x ∈ mro base.
Proof.
  intros (Hbody & n & Hm)%class_stmt_returns. simpl in Hm. split_and!.
  - by eapply c3_merge_NoDup.
  - eapply c3_merge_sublist; [exact Hm|]. apply list_elem_of_here.
  - done.
  - intros x Hx. destruct (c3_merge_elem _ _ _ _ Hm Hx) as (s & Hs & Hxs).
    repeat (apply elem_of_cons in Hs as [->|Hs]); auto.
    + apply elem_of_cons in Hxs as [->|Hxs]; [apply list_elem_of_here|].
      by apply elem_of_nil in Hxs.
    + by apply elem_of_nil in Hs.
Qed.

Lemma head_before base x :
  x ∈ mro base → cls_body base = x ∨ [cls_body base; x] `sublist_of` mro base.
Proof.
  unfold mro. intros [->|Hx]%elem_of_cons; [by left|right].
  apply before_cons. by left.
Qed.

(** What the loop builds: every mixin of the list ends up before
    [DynamicTFPolicy], whose own linearisation is kept, and nothing but
    bodiless classes is added to the mixins' and the base's classes. *)
Lemma while_mixins_mro n l base st st' b ms :
  while_mixins n (Some l) base st = Returns (st', b) →
  lists st !! l = Some ms →
  cls_body DynamicTFPolicy ∈ mro base →
  mro base `sublist_of` mro b ∧
  (∀ M, M ∈ ms → [cls_body M; cls_body DynamicTFPolicy] `sublist_of` mro b) ∧
  (∀ x, x ∈ mro b → x ∈ mro base ∨ cdict x = ∅ ∨ ∃ M, M ∈ ms ∧ x ∈ mro M).
Proof.
  revert base st ms. induction n as [|n IH]; intros base st ms Hw Hl HD;
    destruct (snoc_cases ms) as [->|(ms' & popped & ->)].
  - rewrite (while_mixins_done _ _ _ _ Hl) in Hw. injection Hw as <- <-.
    split_and!; [done| |auto]. by intros M ?%elem_of_nil.
  - by rewrite (while_mixins_stop _ _ _ _ _ Hl) in Hw.
  - rewrite (while_mixins_done _ _ _ _ Hl) in Hw. injection Hw as <- <-.
    split_and!; [done| |auto]. by intros M ?%elem_of_nil.
  - rewrite (while_mixins_iter _ _ _ _ _ _ Hl) in Hw.
    destruct (class_stmt _ _ _) as [nb|] eqn:Hnb; simpl in Hw; [|done].
    destruct (new_base_mro _ _ _ _ Hnb) as (Hnd & Hsub & Hord & Hempty & Helem).
    assert (cls_body DynamicTFPolicy ∈ cls_ancestors nb) as HDnb
      by by eapply elem_of_sublist.
    destruct (IH _ _ _ Hw (lookup_set_list _ _ _)) as (IH1 & IH2 & IH3).
    { by apply list_elem_of_further. }
    assert (cls_ancestors nb `sublist_of` mro b) as Hanc.
    { etrans; [|exact IH1]. by constructor. }
    split_and!.
    + by etrans.
    + intros M [HM| ->%list_elem_of_singleton]%elem_of_app; [by apply IH2|].
      etrans; [|exact Hanc].
      destruct (head_before _ _ HD) as [<-|Hbd]; [done|].
      eapply before_trans; [done|exact Hord|]. by etrans.
    + intros x Hx. destruct (IH3 x Hx) as [Hxnb|[?|(M & HM & ?)]]; [|by auto|].
      * apply elem_of_cons in Hxnb as [->|Hxr]; [by auto|].
        destruct (Helem x Hxr); [|by auto]. right; right. exists popped.
        split; [|done]. apply elem_of_app. right. apply list_elem_of_here.
      * right; right. exists M. split; [|done]. apply elem_of_app. by left.
Qed.

End mixin_order.

(** * The factory: names, the mixin list, mixin precedence, with_updates *)

Section factory_claims.

Variable DynamicTFPolicy : pyclass.

Implicit Types (st : interp) (l : loc) (ms : list pyclass) (kw : kwargs).

Lemma build_tf_policy_closure kw st st' cls :
  build_tf_policy DynamicTFPolicy kw st = Returns (st', cls) →
  pc_closure cls = kw ∧ pc_original_kwargs cls = kw.
Proof. by intros (st1 & base & c & _ & _ & _ & ->)%build_tf_policy_returns. Qed.

(** C9: the class returned by [build_tf_policy] has both [__name__] and
    [__qualname__] equal to the [name] argument. *)
Theorem build_tf_policy_name kw st st' cls :
  build_tf_policy DynamicTFPolicy kw st = Returns (st', cls) →
  pc_name cls = name kw ∧ pc_qualname cls = name kw.
Proof. by intros (st1 & base & c & _ & _ & _ & ->)%build_tf_policy_returns. Qed.

(** C8: a call of [build_tf_policy] with a non-empty [mixins] list empties
    the caller's list object: once the call has returned, the list passed
    as [mixins] is empty. *)
Theorem build_tf_policy_empties_mixins kw st st' cls l ms :
  build_tf_policy DynamicTFPolicy kw st = Returns (st', cls) →
  mixins kw = Some l →
  lists st !! l = Some ms →
  ms ≠ [] →
  lists st' !! l = Some [].
Proof.
  intros (st1 & base & c & Hw & _ & -> & _)%build_tf_policy_returns Hmix _ _.
  rewrite Hmix in Hw. simpl. by eapply while_mixins_empties.
Qed.

(** Without overrides, [with_updates] calls the factory on the original
    arguments. *)
Lemma dict_kwargs_no_overrides kw : dict_kwargs kw no_overrides = kw.
Proof. by destruct kw. Qed.

Lemma with_updates_no_overrides cls st :
  with_updates DynamicTFPolicy cls no_overrides st =
  build_tf_policy DynamicTFPolicy (pc_original_kwargs cls) st.
Proof. unfold with_updates. by rewrite dict_kwargs_no_overrides. Qed.

Lemma class_stmt_other_id id id' body bases c :
  class_stmt id body bases = Returns c →
  class_stmt id' body bases = Returns (PyClass (ClassBody id' body) (cls_ancestors c)).
Proof.
  unfold class_stmt. destruct (c3_merge _ _) as [anc|]; simpl; [|done]. by intros [= <-].
Qed.

(** A class made without mixins is rebuilt unchanged by [with_updates]. *)
Lemma with_updates_identical_without_mixins kw st st' cls :
  build_tf_policy DynamicTFPolicy kw st = Returns (st', cls) →
  mixins kw = None →
  ∃ cls', with_updates DynamicTFPolicy cls no_overrides st' = Returns (fresh_cid st', cls') ∧
          behaviourally_identical cls cls'.
Proof.
  intros (st1 & base & c & Hw & Hc & -> & ->)%build_tf_policy_returns Hmix.
  rewrite Hmix, while_mixins_None in Hw. injection Hw as <- <-.
  rewrite with_updates_no_overrides. simpl. unfold build_tf_policy.
  rewrite Hmix, while_mixins_None. simpl.
  rewrite (class_stmt_other_id _ (S (next_cid st)) _ _ _ Hc). simpl.
  eexists. split; [done|].
  apply class_stmt_returns in Hc as [Hbody _].
  unfold behaviourally_identical, effective_bases. simpl. by rewrite Hbody.
Qed.

(** A class made with mixins is rebuilt by [with_updates] from the list
    object the first call emptied: the new class inherits from
    [DynamicTFPolicy] alone. *)
Lemma with_updates_inherits_base_only kw st st' cls l st'' cls' :
  build_tf_policy DynamicTFPolicy kw st = Returns (st', cls) →
  mixins kw = Some l →
  with_updates DynamicTFPolicy cls no_overrides st' = Returns (st'', cls') →
  ∀ x, x ∈ cls_ancestors (pc_class cls') → x ∈ mro DynamicTFPolicy.
Proof.
  intros Hb Hmix Hu.
  assert (lists st' !! l = Some []) as Hl.
  { apply build_tf_policy_returns in Hb as (st1 & base & c & Hw & _ & -> & _).
    rewrite Hmix in Hw. simpl. by eapply while_mixins_empties. }
  destruct (build_tf_policy_closure _ _ _ _ Hb) as [_ Horig].
  rewrite with_updates_no_overrides, Horig in Hu.
  apply build_tf_policy_returns in Hu as (st1 & base & c & Hw & Hc & _ & ->).
  rewrite Hmix, (while_mixins_done _ _ _ _ Hl) in Hw. injection Hw as <- <-.
  simpl. by apply single_base_mro in Hc as (_ & _ & _ & Hc).
Qed.


End factory_claims.

(** * Instances: the constructor and the methods *)

Section instance_claims.

Variable DynamicTFPolicy : pyclass.
Variable W : Type.
Variable extern : ∀ R, ext R → world W → world W * R.
Variable LEARNER_STATS_KEY : string.

Implicit Types (st : interp) (kw : kwargs) (cls : policy_class)
  (self : pyval) (w : world W).

(** Runs a method: unfolds the monad and names what each outside call
    returns. *)
Ltac run :=
  unfold __init__, DynamicTFPolicy___init__, postprocess_trajectory, optimizer,
    gradients, extra_compute_action_fetches, extra_compute_action_feed_dict,
    extra_compute_grad_fetches, extra_compute_grad_feed_dict,
    mbind, M_bind, mret, M_ret, call, setattr, getattr, as_kwargs, raise;
  simpl;
  repeat match goal with
    | |- context [extern ?R ?c ?w] =>
        let w' := fresh "w" in
        let r := fresh "r" in
        destruct (extern R c w) as [w' r] eqn:?; simpl
    | u : () |- _ => destruct u
    end.

Ltac closure Hb :=
  let Hcl := fresh "Hcl" in
  destruct (build_tf_policy_closure DynamicTFPolicy _ _ _ _ Hb) as [Hcl _].

(** The constructor's run, event by event. *)
Lemma init_run kw st st' cls self obs_space action_space config existing_inputs w :
  build_tf_policy DynamicTFPolicy kw st = Returns (st', cls) →
  ∃ default_config fetches w',
    __init__ extern cls self obs_space action_space config existing_inputs w =
      (init_events kw self obs_space action_space config existing_inputs
         default_config fetches,
       Returns (w', ())) ∧
    (extra_action_fetches_fn kw = None → fetches = ∅).
Proof.
  intros Hb. closure Hb. unfold init_events, used_config, hook_events, __init__.
  rewrite Hcl.
  destruct (get_default_config kw), (before_init kw), (before_loss_init kw),
    (extra_action_fetches_fn kw), (after_init kw); run;
    first [ by eexists ∅, ∅, _ | by eexists ∅, _, _ | by eexists _, ∅, _ | by eexists _, _, _ ].
Qed.

(** C5: a constructor call runs the hooks in this order: [before_init], if
    given, on the merged configuration; then core initialization, within
    which [before_loss_init], if given, runs and the extra action fetches
    are stored right after; then [after_init], if given.  A hook that is
    not given is skipped and the others run all the same. *)
Theorem init_order kw st st' cls self obs_space action_space config existing_inputs w :
  build_tf_policy DynamicTFPolicy kw st = Returns (st', cls) →
  ∃ default_config fetches w',
    __init__ extern cls self obs_space action_space config existing_inputs w =
      (init_events kw self obs_space action_space config existing_inputs
         default_config fetches,
       Returns (w', ())) ∧
    (extra_action_fetches_fn kw = None → fetches = ∅).
Proof.
  intros Hb. closure Hb. unfold init_events, used_config, hook_events, __init__.
  rewrite Hcl.
  destruct (get_default_config kw) as [get_default|];
    destruct (before_init kw) as [before|];
    destruct (before_loss_init kw) as [before_loss|];
    destruct (extra_action_fetches_fn kw) as [action_fetches|];
    destruct (after_init kw) as [after|]; run;
    first [ by eexists ∅, ∅, _ | by eexists ∅, _, _ | by eexists _, ∅, _ | by eexists _, _, _ ].
Qed.

(** C4: with [get_default_config] given, every hook and core
    initialization receive the default configuration updated with the
    caller's, the caller's keys winning; without it they receive the
    caller's configuration as it is. *)
Theorem config_merge kw st st' cls self obs_space action_space config existing_inputs w :
  build_tf_policy DynamicTFPolicy kw st = Returns (st', cls) →
  ∃ used,
    (∀ e c,
       e ∈ (__init__ extern cls self obs_space action_space config existing_inputs w).1 →
       config_of e = Some c → c = used) ∧
    (∃ e,
       e ∈ (__init__ extern cls self obs_space action_space config existing_inputs w).1 ∧
       config_of e = Some used) ∧
    match get_default_config kw with
    | None => used = config
    | Some f =>
        ∃ default_config,
          Called (call_get_default_config f) default_config
            ∈ (__init__ extern cls self obs_space action_space config existing_inputs w).1 ∧
          ∀ k, used !! k =
               match config !! k with
               | Some v => Some v
               | None => default_config !! k
               end
    end.
Proof.
  intros Hb.
  destruct (init_run _ _ _ _ self obs_space action_space config existing_inputs w Hb)
    as (default_config & fetches & w' & -> & _).
  exists (used_config kw default_config config).
  unfold init_events, hook_events, used_config. simpl. split_and!.
  - intros e c Hin.
    destruct (get_default_config kw), (before_init kw), (before_loss_init kw),
      (extra_action_fetches_fn kw), (after_init kw); simpl in Hin;
      repeat (apply elem_of_cons in Hin as [->|Hin]); simpl;
      solve [ by intros [= <-] | done | by apply elem_of_nil in Hin ].
  - eexists. split.
    + apply elem_of_app; right. apply elem_of_app; right. apply list_elem_of_here.
    + reflexivity.
  - destruct (get_default_config kw) as [f|]; [|done].
    exists default_config. split; [apply list_elem_of_here|].
    intros k. unfold py_dict. rewrite lookup_union.
    by destruct (config !! k), (default_config !! k).
Qed.


(** C2: a callback that is not given leaves the method with the base
    class's default: [optimizer], [gradients] and the three feed and fetch
    methods are the corresponding [TFPolicy] method called on [self];
    [postprocess_trajectory] returns the batch it is given and changes
    nothing, as the default of [Policy] does. *)
Theorem unset_callbacks_use_defaults kw st st' cls self w :
  build_tf_policy DynamicTFPolicy kw st = Returns (st', cls) →
  (∀ sample_batch other_agent_batches episode w,
     extern pyval
       (Policy_postprocess_trajectory self sample_batch other_agent_batches episode) w
     = (w, sample_batch)) →
  (postprocess_fn kw = None →
   ∀ sample_batch other_agent_batches episode,
     (postprocess_trajectory extern cls self sample_batch other_agent_batches episode w).2 =
     (call extern
        (Policy_postprocess_trajectory self sample_batch other_agent_batches episode) w).2) ∧
  (optimizer_fn kw = None →
   optimizer extern cls self w = call extern (TFPolicy_optimizer self) w) ∧
  (gradients_fn kw = None →
   ∀ opt loss,
     gradients extern cls self opt loss w = call extern (TFPolicy_gradients self opt loss) w) ∧
  (extra_action_feed_fn kw = None →
   extra_compute_action_feed_dict extern cls self w =
   call extern (TFPolicy_extra_compute_action_feed_dict self) w) ∧
  (extra_learn_fetches_fn kw = None →
   extra_compute_grad_fetches extern LEARNER_STATS_KEY cls self w =
   call extern (TFPolicy_extra_compute_grad_fetches self) w) ∧
  (extra_learn_feed_fn kw = None →
   extra_compute_grad_feed_dict extern cls self w =
   call extern (TFPolicy_extra_compute_grad_feed_dict self) w).
Proof.
  intros Hb Hpolicy. closure Hb.
  unfold postprocess_trajectory, optimizer, gradients, extra_compute_action_feed_dict,
    extra_compute_grad_fetches, extra_compute_grad_feed_dict.
  rewrite Hcl. split_and!; intros ->; try done.
  intros. unfold call. by rewrite Hpolicy.
Qed.

(** C3, as amended: [postprocess_fn], [optimizer_fn], [gradients_fn],
    [extra_action_feed_fn] and [extra_learn_feed_fn], when given, are
    called and their result is returned as it is.  The result of
    [extra_learn_fetches_fn] is returned with an empty learner-stats entry
    added under it, and [extra_compute_action_fetches] returns the
    [TFPolicy] fetches updated with the stored [_extra_action_fetches]. *)
Theorem given_callbacks_are_called kw st st' cls self w :
  build_tf_policy DynamicTFPolicy kw st = Returns (st', cls) →
  (∀ f, postprocess_fn kw = Some f →
   ∀ sample_batch other_agent_batches episode,
     postprocess_trajectory extern cls self sample_batch other_agent_batches episode w =
     call extern (call_postprocess_fn f self sample_batch other_agent_batches episode) w) ∧
  (∀ f config, optimizer_fn kw = Some f → self_dict w !! "config" = Some config →
   optimizer extern cls self w = call extern (call_optimizer_fn f self config) w) ∧
  (∀ f, gradients_fn kw = Some f →
   ∀ opt loss,
     gradients extern cls self opt loss w = call extern (call_gradients_fn f self opt loss) w) ∧
  (∀ f, extra_action_feed_fn kw = Some f →
   extra_compute_action_feed_dict extern cls self w = call extern (call_dict_fn f self) w) ∧
  (∀ f, extra_learn_feed_fn kw = Some f →
   extra_compute_grad_feed_dict extern cls self w = call extern (call_dict_fn f self) w) ∧
  (∀ f w1 fetches, extra_learn_fetches_fn kw = Some f →
   extern dict (call_dict_fn f self) w = (w1, fetches) →
   extra_compute_grad_fetches extern LEARNER_STATS_KEY cls self w =
   ([Called (call_dict_fn f self) fetches],
    Returns (w1, py_dict {[ LEARNER_STATS_KEY := PyDict ∅ ]} fetches))) ∧
  (∀ w1 base_fetches stored,
   extern dict (TFPolicy_extra_compute_action_fetches self) w = (w1, base_fetches) →
   self_dict w1 !! "_extra_action_fetches" = Some (PyDict stored) →
   extra_compute_action_fetches extern self w =
   ([Called (TFPolicy_extra_compute_action_fetches self) base_fetches],
    Returns (w1, py_dict base_fetches stored))).
Proof.
  intros Hb. closure Hb.
  unfold postprocess_trajectory, optimizer, gradients, extra_compute_action_feed_dict,
    extra_compute_grad_fetches, extra_compute_grad_feed_dict, extra_compute_action_fetches.
  rewrite Hcl. split_and!.
  - by intros f ->.
  - intros f config -> Hconfig. unfold mbind, M_bind, getattr. rewrite Hconfig.
    by destruct (call _ _ _) as [l o].
  - by intros f ->.
  - by intros f ->.
  - by intros f ->.
  - intros f w1 fetches -> Hf. unfold mbind, M_bind, mret, M_ret, call. by rewrite Hf.
  - intros w1 base_fetches stored Hbase Hstored.
    unfold mbind, M_bind, mret, M_ret, call, getattr, as_kwargs.
    rewrite Hbase. simpl. by rewrite Hstored.
Qed.

(** C10: with [extra_learn_fetches_fn] given, the dictionary
    [extra_compute_grad_fetches] returns has an entry under
    [LEARNER_STATS_KEY]: the callback's, if its result has one, and the
    empty dictionary otherwise. *)
Theorem learner_stats_present kw st st' cls self w f :
  build_tf_policy DynamicTFPolicy kw st = Returns (st', cls) →
  extra_learn_fetches_fn kw = Some f →
  ∃ w1 fetches returned,
    extern dict (call_dict_fn f self) w = (w1, fetches) ∧
    (extra_compute_grad_fetches extern LEARNER_STATS_KEY cls self w).2
      = Returns (w1, returned) ∧
    (fetches !! LEARNER_STATS_KEY = None →
     returned !! LEARNER_STATS_KEY = Some (PyDict ∅)) ∧
    (∀ v, fetches !! LEARNER_STATS_KEY = Some v →
     returned !! LEARNER_STATS_KEY = Some v).
Proof.
  intros Hb Hf. closure Hb. unfold extra_compute_grad_fetches. rewrite Hcl, Hf. run.
  eexists _, _, _. split_and!; [done..| |].
  - intros Hnone. unfold py_dict. rewrite lookup_union, Hnone. by rewrite lookup_singleton_eq.
  - intros v Hsome. unfold py_dict. rewrite lookup_union, Hsome. by rewrite lookup_singleton_eq.
Qed.

End instance_claims.

(** * More on the class the factory builds *)

Section chain_facts.

Variable DynamicTFPolicy : pyclass.

Implicit Types (st : interp) (l : loc) (ms : list pyclass) (base : pyclass)
  (kw : kwargs).

(** The loop puts a mixin that comes earlier in the list before one that
    comes later, and every mixin of the list before the classes it has
    already placed. *)
Lemma while_mixins_order n l base st st' b ms (placed : list class_body) :
  while_mixins n (Some l) base st = Returns (st', b) →
  lists st !! l = Some ms →
  (∀ P, P ∈ placed → [cls_body base; P] `sublist_of` mro base) →
  (∀ M P, M ∈ ms → P ∈ placed → [cls_body M; P] `sublist_of` mro b) ∧
  (∀ i j A B, i < j → ms !! i = Some A → ms !! j = Some B →
     [cls_body A; cls_body B] `sublist_of` mro b).
Proof.
  revert base st ms placed. induction n as [|n IH]; intros base st ms placed Hw Hl Hplaced;
    destruct (snoc_cases ms) as [->|(ms' & popped & ->)].
  - split; [by intros M P ?%elem_of_nil|intros i j A B _ HA; by rewrite lookup_nil in HA].
  - by rewrite (while_mixins_stop _ _ _ _ _ Hl) in Hw.
  - split; [by intros M P ?%elem_of_nil|intros i j A B _ HA; by rewrite lookup_nil in HA].
  - rewrite (while_mixins_iter _ _ _ _ _ _ Hl) in Hw.
    destruct (class_stmt _ _ _) as [nb|] eqn:Hnb; simpl in Hw; [|done].
    destruct (new_base_mro _ _ _ _ Hnb) as (Hnd & Hsub & Hord & _ & _).
    assert (∀ P, P ∈ placed → [cls_body popped; P] `sublist_of` cls_ancestors nb) as Hpp.
    { intros P HP. eapply before_trans; [done|exact Hord|].
      etrans; [by apply Hplaced|done]. }
    destruct (IH nb _ ms' (cls_body popped :: placed) Hw (lookup_set_list _ _ _))
      as (IH1 & IH2).
    { intros P [->|HP]%elem_of_cons; apply before_cons; left; (split; [done|]).
      - by eapply before_elem_l.
      - eapply before_elem_r. by apply Hpp. }
    destruct (while_mixins_mro nb _ _ _ _ _ _ _ Hw (lookup_set_list _ _ _))
      as (Hnbb & _ & _); [apply list_elem_of_here|].
    assert (cls_ancestors nb `sublist_of` mro b) as Hanc.
    { etrans; [|exact Hnbb]. by constructor. }
    split.
    + intros M P [HM| ->%list_elem_of_singleton]%elem_of_app HP.
      * apply IH1; [done|]. by apply list_elem_of_further.
      * etrans; [by apply Hpp|done].
    + intros i j A B Hij HA HB.
      destruct (decide (j < length ms')) as [Hj|Hj].
      * rewrite lookup_app_l in HA, HB by lia. exact (IH2 i j A B Hij HA HB).
      * assert (j = length ms') as ->.
        { apply lookup_lt_Some in HB. rewrite length_app in HB. simpl in HB. lia. }
        rewrite lookup_app_l in HA by lia.
        rewrite list_lookup_middle in HB by done. injection HB as <-.
        apply IH1; [by eapply list_elem_of_lookup_2|apply list_elem_of_here].
Qed.

(** What a returned class is made of, linearisation included. *)
Lemma build_tf_policy_chain kw st st' cls :
  build_tf_policy DynamicTFPolicy kw st = Returns (st', cls) →
  ∃ c,
    pc_class cls = class_setattr "with_updates" c ∧
    cdict (cls_body c) = policy_cls_body ∧
    NoDup (cls_ancestors c) ∧
    mro DynamicTFPolicy `sublist_of` cls_ancestors c ∧
    (∀ x, x ∈ cls_ancestors c →
       x ∈ mro DynamicTFPolicy ∨ cdict x = ∅ ∨
       ∃ l ms M, mixins kw = Some l ∧ lists st !! l = Some ms ∧ M ∈ ms ∧ x ∈ mro M) ∧
    (∀ l ms, mixins kw = Some l → lists st !! l = Some ms →
       (∀ M, M ∈ ms →
          [cls_body M; cls_body DynamicTFPolicy] `sublist_of` cls_ancestors c) ∧
       (∀ i j A B, i < j → ms !! i = Some A → ms !! j = Some B →
          [cls_body A; cls_body B] `sublist_of` cls_ancestors c)).
Proof.
  intros (st1 & base & c & Hw & Hc & -> & ->)%build_tf_policy_returns.
  destruct (single_base_mro _ _ _ _ Hc) as (Hnd & Hsub & Hbody & Helem).
  exists c. split; [done|]. split; [by rewrite Hbody|]. split; [done|].
  destruct (mixins kw) as [l|] eqn:Hmix.
  - destruct (lists st !! l) as [ms|] eqn:Hl.
    2:{ destruct (mixins_length (Some l) st); simpl in Hw; by rewrite Hl in Hw. }
    destruct (while_mixins_mro DynamicTFPolicy _ _ _ _ _ _ _ Hw Hl)
      as (HD & Hbefore & Hfrom); [apply list_elem_of_here|].
    destruct (while_mixins_order _ _ _ _ _ _ _ [] Hw Hl) as (_ & Horder);
      [by intros P ?%elem_of_nil|].
    split_and!.
    + by etrans.
    + intros x Hx. destruct (Hfrom x (Helem x Hx)) as [?|[?|(M & HM & HxM)]]; auto.
      right; right. by exists l, ms, M.
    + intros l' ms' [= <-] Hl'. rewrite Hl in Hl'. injection Hl' as <-. split.
      * intros M HM. etrans; [by apply Hbefore|done].
      * intros i j A B Hij HA HB. etrans; [exact (Horder i j A B Hij HA HB)|done].
  - rewrite while_mixins_None in Hw. injection Hw as <- <-. split_and!; [done| |done].
    intros x Hx. left. by apply Helem.
Qed.

End chain_facts.

Section factory_extras.

Variable DynamicTFPolicy : pyclass.

Implicit Types (st : interp) (l : loc) (ms : list pyclass) (kw : kwargs).

(** The factory changes no list object but the one passed as [mixins]. *)
Theorem build_tf_policy_frame kw st st' cls l' :
  build_tf_policy DynamicTFPolicy kw st = Returns (st', cls) →
  mixins kw ≠ Some l' →
  lists st' !! l' = lists st !! l'.
Proof.
  intros (st1 & base & c & Hw & _ & -> & _)%build_tf_policy_returns Hne. simpl.
  destruct (mixins kw) as [l|].
  - eapply while_mixins_frame; [exact Hw|]. congruence.
  - rewrite while_mixins_None in Hw. by injection Hw as <- <-.
Qed.

(** Mixins are applied in the order of the list: a mixin that comes earlier
    in the list comes earlier in the produced class's linearisation. *)
Theorem mixins_in_list_order kw st st' cls l ms i j A B :
  build_tf_policy DynamicTFPolicy kw st = Returns (st', cls) →
  mixins kw = Some l →
  lists st !! l = Some ms →
  i < j → ms !! i = Some A → ms !! j = Some B →
  [cls_body A; cls_body B] `sublist_of` mro (pc_class cls).
Proof.
  intros Hb Hmix Hl Hij HA HB.
  destruct (build_tf_policy_chain _ _ _ _ _ Hb) as (c & -> & _ & _ & _ & _ & Hms).
  destruct (Hms l ms Hmix Hl) as [_ Horder].
  unfold mro. simpl. constructor. exact (Horder i j A B Hij HA HB).
Qed.

(** The produced class is a subclass of every mixin of the list and of
    [DynamicTFPolicy], whose linearisation it keeps in order; and it lists
    no class twice. *)
Theorem produced_class_bases kw st st' cls :
  build_tf_policy DynamicTFPolicy kw st = Returns (st', cls) →
  mro DynamicTFPolicy `sublist_of` mro (pc_class cls) ∧
  NoDup (cls_ancestors (pc_class cls)) ∧
  ∀ l ms M, mixins kw = Some l → lists st !! l = Some ms → M ∈ ms →
            cls_body M ∈ mro (pc_class cls).
Proof.
  intros Hb.
  destruct (build_tf_policy_chain _ _ _ _ _ Hb) as (c & -> & _ & Hnd & HD & _ & Hms).
  unfold mro at 2 3. simpl. split_and!; [by constructor|done|].
  intros l ms M Hmix Hl HM. apply list_elem_of_further.
  destruct (Hms l ms Hmix Hl) as [Hbefore _]. eapply before_elem_l. by apply Hbefore.
Qed.

(** A list that names a class twice, or names [DynamicTFPolicy] itself,
    makes the factory fail with a [TypeError]. *)
Theorem repeated_mixin_raises kw st l ms :
  mixins kw = Some l →
  lists st !! l = Some ms →
  (∃ i j A B, i < j ∧ ms !! i = Some A ∧ ms !! j = Some B ∧ cls_body A = cls_body B) ∨
  (∃ M, M ∈ ms ∧ cls_body M = cls_body DynamicTFPolicy) →
  build_tf_policy DynamicTFPolicy kw st = Raises TypeError.
Proof.
  intros Hmix Hl Hrep.
  destruct (build_tf_policy_outcomes DynamicTFPolicy kw st) as [[[st' cls] Hb]|Hb];
    [|exfalso|done].
  { intros l' Hl'. rewrite Hmix in Hl'. injection Hl' as <-. by rewrite Hl. }
  destruct (build_tf_policy_chain _ _ _ _ _ Hb) as (c & _ & _ & Hnd & _ & _ & Hms).
  destruct (Hms l ms Hmix Hl) as [Hbefore Horder].
  destruct Hrep as [(i & j & A & B & Hij & HA & HB & Heq)|(M & HM & Heq)].
  - apply (before_irrefl (cls_body A) _ Hnd).
    rewrite Heq at 2. exact (Horder i j A B Hij HA HB).
  - apply (before_irrefl (cls_body M) _ Hnd). rewrite Heq at 2. by apply Hbefore.
Qed.

(** The names the produced class binds in its own body -- the constructor,
    the seven methods and [with_updates] -- are found in that body,
    whatever the mixins define. *)
Theorem own_methods_found_first kw st st' cls m :
  build_tf_policy DynamicTFPolicy kw st = Returns (st', cls) →
  m ∈ policy_cls_body ∨ m = "with_updates" →
  class_getattr (pc_class cls) m = Some (cls_body (pc_class cls)).
Proof.
  intros Hb Hm.
  destruct (build_tf_policy_chain _ _ _ _ _ Hb) as (c & -> & Hbody & _).
  unfold class_getattr, mro. simpl. unfold defines at 1. simpl.
  rewrite bool_decide_eq_true_2; [done|].
  rewrite Hbody. apply elem_of_union. destruct Hm as [?| ->]; [by right|left].
  by apply elem_of_singleton.
Qed.



End factory_extras.

Section with_updates_extras.

Variable DynamicTFPolicy : pyclass.

Implicit Types (st : interp) (kw : kwargs) (ov : overrides) (cls : policy_class).

(** The class [with_updates] returns is built from the original arguments
    with each override put in place of the argument it names; it is named
    by the overriding [name], or as the original when none is given. *)
Theorem with_updates_overrides kw st st1 cls ov st2 cls' :
  build_tf_policy DynamicTFPolicy kw st = Returns (st1, cls) →
  with_updates DynamicTFPolicy cls ov st1 = Returns (st2, cls') →
  pc_closure cls' = dict_kwargs kw ov ∧
  pc_name cls' = default (name kw) (name ov) ∧
  pc_qualname cls' = default (name kw) (name ov).
Proof.
  intros Hb Hu. destruct (build_tf_policy_closure _ _ _ _ _ Hb) as [_ Horig].
  unfold with_updates in Hu. rewrite Horig in Hu.
  apply build_tf_policy_returns in Hu as (st3 & base & c & _ & _ & _ & ->). done.
Qed.

(** Overrides accumulate along a chain of [with_updates] calls: the second
    call starts from the arguments the first call arrived at. *)
Theorem with_updates_twice kw st st1 cls ov1 st2 cls1 ov2 st3 cls2 :
  build_tf_policy DynamicTFPolicy kw st = Returns (st1, cls) →
  with_updates DynamicTFPolicy cls ov1 st1 = Returns (st2, cls1) →
  with_updates DynamicTFPolicy cls1 ov2 st2 = Returns (st3, cls2) →
  pc_closure cls2 = dict_kwargs (dict_kwargs kw ov1) ov2.
Proof.
  intros Hb Hu1 Hu2. destruct (build_tf_policy_closure _ _ _ _ _ Hb) as [_ Horig].
  unfold with_updates in Hu1. rewrite Horig in Hu1.
  destruct (build_tf_policy_closure _ _ _ _ _ Hu1) as [_ Horig1].
  unfold with_updates in Hu2. rewrite Horig1 in Hu2.
  by destruct (build_tf_policy_closure _ _ _ _ _ Hu2) as [-> _].
Qed.

End with_updates_extras.

Section instance_extras.

Variable DynamicTFPolicy : pyclass.
Variable W : Type.
Variable extern : ∀ R, ext R → world W → world W * R.
Variable LEARNER_STATS_KEY : string.

Implicit Types (st : interp) (kw : kwargs) (cls : policy_class)
  (self : pyval) (w : world W).

Ltac closure Hb :=
  let Hcl := fresh "Hcl" in
  destruct (build_tf_policy_closure DynamicTFPolicy _ _ _ _ Hb) as [Hcl _].

(** [extra_compute_grad_fetches] keeps every entry of what
    [extra_learn_fetches_fn] returned and adds no key but
    [LEARNER_STATS_KEY]. *)
Theorem learn_fetches_kept kw st st' cls self w f :
  build_tf_policy DynamicTFPolicy kw st = Returns (st', cls) →
  extra_learn_fetches_fn kw = Some f →
  ∃ w1 fetches returned,
    extern dict (call_dict_fn f self) w = (w1, fetches) ∧
    (extra_compute_grad_fetches extern LEARNER_STATS_KEY cls self w).2
      = Returns (w1, returned) ∧
    (∀ k v, fetches !! k = Some v → returned !! k = Some v) ∧
    (∀ k, k ≠ LEARNER_STATS_KEY → returned !! k = fetches !! k) ∧
    dom returned = dom fetches ∪ {[ LEARNER_STATS_KEY ]}.
Proof.
  intros Hb Hf. closure Hb. unfold extra_compute_grad_fetches. rewrite Hcl, Hf.
  unfold mbind, M_bind, mret, M_ret, call.
  destruct (extern dict (call_dict_fn f self) w) as [w1 fetches]. simpl.
  exists w1, fetches, (py_dict {[ LEARNER_STATS_KEY := PyDict ∅ ]} fetches).
  unfold py_dict. split_and!; [done..| | |].
  - intros k v Hk. by apply lookup_union_Some_l.
  - intros k Hk. rewrite lookup_union, lookup_singleton_ne by done.
    by destruct (fetches !! k).
  - by rewrite dom_union_L, dom_singleton_L.
Qed.

(** In the dictionary [extra_compute_action_fetches] returns, an entry
    stored in [_extra_action_fetches] wins over the base class's entry
    under the same key, and every other entry of the base class is kept. *)
Theorem action_fetches_lookup self w w1 base_fetches stored :
  extern dict (TFPolicy_extra_compute_action_fetches self) w = (w1, base_fetches) →
  self_dict w1 !! "_extra_action_fetches" = Some (PyDict stored) →
  ∃ returned,
    (extra_compute_action_fetches extern self w).2 = Returns (w1, returned) ∧
    ∀ k, returned !! k =
         match stored !! k with
         | Some v => Some v
         | None => base_fetches !! k
         end.
Proof.
  intros Hbase Hstored.
  unfold extra_compute_action_fetches, mbind, M_bind, mret, M_ret, call, getattr, as_kwargs.
  rewrite Hbase. simpl. rewrite Hstored. simpl. eexists. split; [done|].
  intros k. unfold py_dict. rewrite lookup_union.
  by destruct (stored !! k), (base_fetches !! k).
Qed.


(** With [optimizer_fn] given and no [config] attribute on the instance,
    [optimizer] raises [AttributeError] and the callback is not called. *)
Theorem optimizer_without_config kw st st' cls self w f :
  build_tf_policy DynamicTFPolicy kw st = Returns (st', cls) →
  optimizer_fn kw = Some f →
  self_dict w !! "config" = None →
  optimizer extern cls self w = ([], Raises AttributeError).
Proof.
  intros Hb Hf Hconfig. closure Hb. unfold optimizer. rewrite Hcl, Hf.
  unfold mbind, M_bind, getattr. by rewrite Hconfig.
Qed.

(** The [get_batch_divisibility_req] argument is not used: a class built
    with another value for it has the same constructor and the same
    methods. *)
Theorem get_batch_divisibility_req_unused kw st st1 cls v st' st2 cls' self :
  build_tf_policy DynamicTFPolicy kw st = Returns (st1, cls) →
  build_tf_policy DynamicTFPolicy
    (dict_kwargs kw (only_get_batch_divisibility_req v)) st' = Returns (st2, cls') →
  (∀ obs_space action_space config existing_inputs w,
     __init__ extern cls' self obs_space action_space config existing_inputs w =
     __init__ extern cls self obs_space action_space config existing_inputs w) ∧
  (∀ sample_batch other_agent_batches episode w,
     postprocess_trajectory extern cls' self sample_batch other_agent_batches episode w =
     postprocess_trajectory extern cls self sample_batch other_agent_batches episode w) ∧
  (∀ w, optimizer extern cls' self w = optimizer extern cls self w) ∧
  (∀ opt loss w, gradients extern cls' self opt loss w = gradients extern cls self opt loss w) ∧
  (∀ w, extra_compute_action_feed_dict extern cls' self w =
        extra_compute_action_feed_dict extern cls self w) ∧
  (∀ w, extra_compute_grad_fetches extern LEARNER_STATS_KEY cls' self w =
        extra_compute_grad_fetches extern LEARNER_STATS_KEY cls self w) ∧
  (∀ w, extra_compute_grad_feed_dict extern cls' self w =
        extra_compute_grad_feed_dict extern cls self w).
Proof.
  intros Hb Hb'. closure Hb.
  destruct (build_tf_policy_closure DynamicTFPolicy _ _ _ _ Hb') as [Hcl' _].
  unfold __init__, postprocess_trajectory, optimizer, gradients,
    extra_compute_action_feed_dict, extra_compute_grad_fetches,
    extra_compute_grad_feed_dict.
  rewrite Hcl, Hcl'. by destruct kw.
Qed.

End instance_extras.

Section init_then_fetch.

Variable DynamicTFPolicy : pyclass.
Variable W : Type.
Variable extern : ∀ R, ext R → world W → world W * R.

Implicit Types (st : interp) (kw : kwargs) (cls : policy_class)
  (self : pyval) (w : world W).

Ltac run :=
  unfold __init__, DynamicTFPolicy___init__, extra_compute_action_fetches,
    mbind, M_bind, mret, M_ret, call, setattr, getattr, as_kwargs, raise;
  simpl;
  repeat match goal with
    | |- context [extern ?R ?c ?w] =>
        let w' := fresh "w" in
        let r := fresh "r" in
        destruct (extern R c w) as [w' r] eqn:?; simpl
    | u : () |- _ => destruct u
    end.

(** Turns what is known of each outside call into what it left of the
    attribute. *)
Ltac frames Hleave :=
  repeat match goal with
    | Heq : extern ?R ?c ?w = (?w', _) |- _ =>
        let Hx := fresh "Hframe" in
        pose proof (Hleave R c w) as Hx; rewrite Heq in Hx; simpl in Hx; clear Heq
    end.

Ltac chase :=
  repeat match goal with
    | H : self_dict _ !! _ = _ |- _ => rewrite H; clear H
    end;
  simpl; try rewrite lookup_insert_eq.

(** What the constructor stores is what the method reads: if the code
    outside the class leaves [_extra_action_fetches] alone, then after a
    constructor call the attribute holds the dictionary stored during
    initialization, and [extra_compute_action_fetches] returns the base
    class's fetches updated with it. *)
Theorem fetches_stored_by_init kw st st' cls self obs_space action_space config
    existing_inputs w :
  build_tf_policy DynamicTFPolicy kw st = Returns (st', cls) →
  leaves_attr extern "_extra_action_fetches" →
  ∃ fetches w',
    (__init__ extern cls self obs_space action_space config existing_inputs w).2
      = Returns (w', ()) ∧
    self_dict w' !! "_extra_action_fetches" = Some (PyDict fetches) ∧
    match extra_action_fetches_fn kw with
    | None => fetches = ∅
    | Some f =>
        Called (call_dict_fn f self) fetches
          ∈ (__init__ extern cls self obs_space action_space config existing_inputs w).1
    end ∧
    ∀ w1 base_fetches,
      extern dict (TFPolicy_extra_compute_action_fetches self) w' = (w1, base_fetches) →
      (extra_compute_action_fetches extern self w').2
        = Returns (w1, py_dict base_fetches fetches).
Proof.
  intros Hb Hleave.
  destruct (build_tf_policy_closure DynamicTFPolicy _ _ _ _ Hb) as [Hcl _].
  unfold __init__. rewrite Hcl.
  destruct (get_default_config kw), (before_init kw), (before_loss_init kw),
    (extra_action_fetches_fn kw), (after_init kw); run;
    eexists _, _; (split; [reflexivity|]); frames Hleave;
    (split; [by chase|]);
    (split; [first [ reflexivity
                   | repeat first [ apply list_elem_of_here | apply list_elem_of_further ] ]|]);
    intros w' base_fetches Hbase;
    match type of Hbase with
    | extern ?R ?c ?w0 = _ => pose proof (Hleave R c w0) as Hlast
    end;
    rewrite Hbase in Hlast; simpl in Hlast; rewrite Hbase; simpl;
    rewrite Hlast; by chase.
Qed.

End init_then_fetch.

(** * Mixins that derive from object alone *)

Section plain_merge.

Implicit Types (b o x : class_body) (anc s : list class_body)
  (seqs : list (list class_body)).

Lemma filter_nonempty_idemp seqs :
  List.filter nonempty (List.filter nonempty seqs) = List.filter nonempty seqs.
Proof.
  induction seqs as [|[|x s] seqs IH]; simpl; [done..|]. by rewrite IH.
Qed.

Lemma c3_merge_live n seqs : c3_merge n seqs = c3_merge n (List.filter nonempty seqs).
Proof. destruct n; simpl; by rewrite filter_nonempty_idemp. Qed.

Lemma c3_merge_pick n seqs c :
  candidate (List.filter nonempty seqs) = Some c →
  c3_merge (S n) seqs =
    let* r := c3_merge n (map (drop_head c) (List.filter nonempty seqs)) in
    Returns (c :: r).
Proof.
  intros Hc. simpl. destruct (List.filter nonempty seqs) as [|s0 live]; [done|].
  by rewrite Hc.
Qed.

(** One sequence merges to itself. *)
Lemma c3_merge_one n s : NoDup s → length s ≤ n → c3_merge n [s] = Returns s.
Proof.
  revert n. induction s as [|x s IH]; intros n Hnd Hn; [by destruct n|].
  apply NoDup_cons in Hnd as [Hx Hnd]. destruct n as [|n]; [simpl in Hn; lia|].
  rewrite (c3_merge_pick _ _ x).
  - simpl. rewrite decide_True by done. rewrite IH; [done..|]. simpl in Hn. lia.
  - simpl. unfold candidate, in_some_tail. simpl.
    by rewrite bool_decide_eq_false_2.
Qed.

(** [class C(B)]: the linearisation of [B]. *)
Lemma c3_merge_single n b anc :
  NoDup (b :: anc) → length anc < n →
  c3_merge n [b :: anc; [b]] = Returns (b :: anc).
Proof.
  intros [Hb Hnd]%NoDup_cons Hn. destruct n as [|n]; [lia|].
  rewrite (c3_merge_pick _ _ b).
  - simpl. rewrite !decide_True by done. rewrite c3_merge_live.
    assert (List.filter nonempty [anc; []] = List.filter nonempty [anc]) as -> by done.
    rewrite <- c3_merge_live, c3_merge_one; [done..|lia].
  - simpl. unfold candidate, in_some_tail. simpl.
    by rewrite bool_decide_eq_false_2.
Qed.

(** A sequence ending in [o] absorbs the sequence [[o]]. *)
Lemma c3_merge_tail n anc o :
  NoDup (anc ++ [o]) → length anc < n →
  c3_merge n [[o]; anc ++ [o]] = Returns (anc ++ [o]).
Proof.
  revert n. induction anc as [|a anc IH]; intros n Hnd Hn;
    (destruct n as [|n]; [simpl in Hn; lia|]).
  - rewrite (c3_merge_pick _ _ o); [|done].
    simpl. rewrite !decide_True by done. by destruct n.
  - simpl in Hnd. apply NoDup_cons in Hnd as [Ha Hnd].
    assert (a ≠ o) as Hao.
    { intros ->. apply Ha, elem_of_app. right. apply list_elem_of_here. }
    rewrite (c3_merge_pick _ _ a).
    + simpl. rewrite decide_False by done. rewrite decide_True by done.
      rewrite IH; [done..|]. simpl in Hn. lia.
    + simpl. unfold candidate, in_some_tail. simpl.
      rewrite (bool_decide_eq_true_2 (o ∈ anc ++ [o])).
      2:{ apply elem_of_app. right. apply list_elem_of_here. }
      simpl. by rewrite (bool_decide_eq_false_2 (a ∈ anc ++ [o])).
Qed.

(** [class C(M, B)] for [M] deriving from [object] alone and [B] ending in
    [object]: [M], then the linearisation of [B]. *)
Lemma c3_merge_plain n M b anc o :
  NoDup (M :: b :: anc ++ [o]) → length anc + 2 < n →
  c3_merge n [[M; o]; b :: anc ++ [o]; [M; b]] = Returns (M :: b :: anc ++ [o]).
Proof.
  intros [HM [Hb Hnd]%NoDup_cons]%NoDup_cons Hn.
  assert (M ≠ b) as HMb by (intros ->; apply HM, list_elem_of_here).
  assert (M ∉ anc ++ [o]) as HManc by (intros ?; by apply HM, list_elem_of_further).
  assert (M ≠ o) as HMo.
  { intros ->. apply HManc, elem_of_app. right. apply list_elem_of_here. }
  assert (b ≠ o) as Hbo.
  { intros ->. apply Hb, elem_of_app. right. apply list_elem_of_here. }
  destruct n as [|[|n]]; [lia..|].
  rewrite (c3_merge_pick _ _ M).
  2:{ simpl. unfold candidate, in_some_tail. simpl.
      rewrite (bool_decide_eq_false_2 (M ∈ [o])).
      2:{ by intros ?%list_elem_of_singleton. }
      rewrite (bool_decide_eq_false_2 (M ∈ anc ++ [o])) by done.
      rewrite (bool_decide_eq_false_2 (M ∈ [b])); [done|].
      by intros ?%list_elem_of_singleton. }
  simpl map. rewrite !(decide_True (P := M = M)) by done.
  rewrite (decide_False (P := b = M)) by done.
  rewrite (c3_merge_pick _ _ b).
  2:{ simpl. unfold candidate, in_some_tail. simpl.
      rewrite (bool_decide_eq_true_2 (o ∈ anc ++ [o])).
      2:{ apply elem_of_app. right. apply list_elem_of_here. }
      simpl. by rewrite (bool_decide_eq_false_2 (b ∈ anc ++ [o])). }
  simpl map. rewrite (decide_False (P := o = b)) by done.
  rewrite !(decide_True (P := b = b)) by done.
  rewrite c3_merge_live.
  assert (List.filter nonempty [[o]; anc ++ [o]; []] = [[o]; anc ++ [o]]) as ->.
  { simpl. by destruct anc. }
  rewrite c3_merge_tail; [done..|lia].
Qed.

End plain_merge.

Section plain_mixins.

Variable DynamicTFPolicy : pyclass.

(** The body of [object]. *)
Variable object_body : class_body.

Implicit Types (st : interp) (l : loc) (ms : list pyclass) (base : pyclass)
  (kw : kwargs).

Lemma plain_chain_snoc first_id ms M base_mro :
  plain_chain first_id (ms ++ [M]) base_mro =
  plain_chain (S first_id) ms (ClassBody first_id ∅ :: cls_body M :: base_mro).
Proof.
  induction ms as [|M' ms IH]; simpl.
  - by rewrite Nat.add_0_r.
  - rewrite IH, length_app. simpl. do 2 f_equal. lia.
Qed.

Lemma class_stmt_plain id M base banc :
  cls_ancestors M = [object_body] →
  cls_ancestors base = banc ++ [object_body] →
  NoDup (cls_body M :: mro base) →
  class_stmt id ∅ [M; base] =
    Returns (PyClass (ClassBody id ∅) (cls_body M :: mro base)).
Proof.
  intros HM Hbase Hnd. unfold class_stmt.
  assert (map mro [M; base] ++ [map cls_body [M; base]] =
          [[cls_body M; object_body]; cls_body base :: banc ++ [object_body];
           [cls_body M; cls_body base]]) as ->.
  { unfold mro. simpl. by rewrite HM, Hbase. }
  unfold mro in *. rewrite Hbase in *.
  rewrite c3_merge_plain; [done|done|]. simpl. rewrite !length_app. simpl. lia.
Qed.

Lemma class_stmt_one_base id body base :
  NoDup (mro base) →
  class_stmt id body [base] = Returns (PyClass (ClassBody id body) (mro base)).
Proof.
  intros Hnd. unfold class_stmt.
  assert (map mro [base] ++ [map cls_body [base]] =
          [cls_body base :: cls_ancestors base; [cls_body base]]) as -> by done.
  unfold mro in *. rewrite c3_merge_single; [done|done|]. simpl. lia.
Qed.

(** The loop on mixins that derive from [object] alone. *)
Lemma while_mixins_plain ms : ∀ n l base st banc,
  lists st !! l = Some ms →
  length ms ≤ n →
  cls_ancestors base = banc ++ [object_body] →
  NoDup (mro base) →
  (∀ M, M ∈ ms → cls_ancestors M = [object_body]) →
  NoDup (map cls_body ms) →
  (∀ M, M ∈ ms → cls_body M ∉ mro base) →
  (∀ M, M ∈ ms → cid (cls_body M) < next_cid st) →
  (∀ x, x ∈ mro base → cid x < next_cid st) →
  ∃ st' b,
    while_mixins n (Some l) base st = Returns (st', b) ∧
    mro b = plain_chain (next_cid st) ms (mro base) ∧
    NoDup (mro b) ∧
    next_cid st' = next_cid st + length ms.
Proof.
  induction ms as [|M ms IH] using rev_ind;
    intros n l base st banc Hl Hn Hbase Hnd Hplain Hdistinct Hnew HfreshM Hfresh.
  - rewrite (while_mixins_done _ _ _ _ Hl). exists st, base. simpl.
    split_and!; [done..|lia].
  - rewrite length_app in Hn. simpl in Hn. destruct n as [|n]; [lia|].
    rewrite (while_mixins_iter _ _ _ _ _ _ Hl).
    assert (M ∈ ms ++ [M]) as HM by (apply elem_of_app; right; apply list_elem_of_here).
    rewrite (class_stmt_plain _ _ _ banc); [|by apply Hplain|done|].
    2:{ apply NoDup_cons. split; [by apply Hnew|done]. }
    simpl. set (nb := PyClass (ClassBody (next_cid st) ∅) (cls_body M :: mro base)).
    rewrite fmap_app in Hdistinct. apply NoDup_app in Hdistinct as (Hdms & HdM & _).
    destruct (IH n l nb (fresh_cid (set_list l ms st))
                (cls_body M :: cls_body base :: banc)) as (st' & b & Hw & Hmro & Hndb & Hid).
    + apply lookup_set_list.
    + lia.
    + unfold nb, mro. simpl. by rewrite Hbase.
    + unfold nb, mro at 1. simpl. apply NoDup_cons. split.
      * intros [Heq|Hin]%elem_of_cons.
        -- specialize (HfreshM M HM). rewrite <- Heq in HfreshM. simpl in HfreshM. lia.
        -- specialize (Hfresh _ Hin). simpl in Hfresh. lia.
      * apply NoDup_cons. split; [by apply Hnew|done].
    + intros M' HM'. apply Hplain, elem_of_app. by left.
    + done.
    + intros M' HM'. unfold nb, mro at 1. simpl.
      intros [Heq|[Heq|Hin]%elem_of_cons]%elem_of_cons.
      * assert (cid (cls_body M') < next_cid st) as Hlt
          by (apply HfreshM, elem_of_app; by left).
        rewrite Heq in Hlt. simpl in Hlt. lia.
      * apply (HdM (cls_body M')); [|rewrite Heq; apply list_elem_of_here].
        apply list_elem_of_fmap. by exists M'.
      * apply (Hnew M'); [apply elem_of_app; by left|done].
    + intros M' HM'. simpl.
      assert (cid (cls_body M') < next_cid st); [|lia].
      apply HfreshM, elem_of_app. by left.
    + intros x. unfold nb, mro at 1. simpl.
      intros [->|[->|Hin]%elem_of_cons]%elem_of_cons; simpl.
      * lia.
      * specialize (HfreshM M HM). lia.
      * specialize (Hfresh _ Hin). lia.
    + exists st', b. split_and!; [done| |done|].
      * rewrite Hmro. simpl. by rewrite plain_chain_snoc.
      * rewrite Hid, length_app. simpl. lia.
Qed.


End plain_mixins.

(** * The returned class, written out *)

Section explicit_results.

Variable DynamicTFPolicy : pyclass.
Variable object_body : class_body.

Implicit Types (st : interp) (l : loc) (ms : list pyclass) (kw : kwargs).

(** Without mixins, or with an empty list of them, the class derives from
    [DynamicTFPolicy] directly. *)
Lemma build_tf_policy_without_mixins kw st :
  mixins kw = None ∨ (∃ l, mixins kw = Some l ∧ lists st !! l = Some []) →
  NoDup (mro DynamicTFPolicy) →
  build_tf_policy DynamicTFPolicy kw st =
    Returns (fresh_cid st, produced_class (next_cid st) (mro DynamicTFPolicy) kw).
Proof.
  intros Hmix Hnd. unfold build_tf_policy.
  assert (while_mixins (mixins_length (mixins kw) st) (mixins kw) DynamicTFPolicy st
          = Returns (st, DynamicTFPolicy)) as ->.
  { destruct Hmix as [->|(l & -> & Hl)]; [apply while_mixins_None|].
    by apply while_mixins_done. }
  cbn [obind]. by rewrite class_stmt_one_base.
Qed.

(** With mixins that derive from [object] alone. *)
Lemma build_tf_policy_plain kw st l ms danc :
  mixins kw = Some l →
  lists st !! l = Some ms →
  cls_ancestors DynamicTFPolicy = danc ++ [object_body] →
  NoDup (mro DynamicTFPolicy) →
  (∀ M, M ∈ ms → cls_ancestors M = [object_body]) →
  NoDup (map cls_body ms) →
  (∀ M, M ∈ ms → cls_body M ∉ mro DynamicTFPolicy) →
  (∀ M, M ∈ ms → cid (cls_body M) < next_cid st) →
  (∀ x, x ∈ mro DynamicTFPolicy → cid x < next_cid st) →
  ∃ st',
    build_tf_policy DynamicTFPolicy kw st =
      Returns (st', produced_class (next_cid st + length ms)
                      (plain_chain (next_cid st) ms (mro DynamicTFPolicy)) kw) ∧
    lists st' !! l = Some [] ∧
    next_cid st' = S (next_cid st + length ms).
Proof.
  intros Hmix Hl HD Hnd Hplain Hdistinct Hnew HfreshM Hfresh.
  destruct (while_mixins_plain object_body ms (length ms) l DynamicTFPolicy st danc)
    as (st1 & b & Hw & Hmro & Hndb & Hid); [done..|].
  exists (fresh_cid st1). unfold build_tf_policy. rewrite Hmix.
  unfold mixins_length. rewrite Hl. cbn [default from_option id].
  rewrite Hw. cbn [obind]. rewrite class_stmt_one_base by done. cbn [obind].
  rewrite Hmro, Hid. split_and!; [done| |by cbn; rewrite Hid].
  cbn. by eapply while_mixins_empties.
Qed.

End explicit_results.

(** * The sample inputs *)

Section sample_facts.

Import Sample.

Lemma find_here {A} (f : A → bool) x l : f x = true → find f (x :: l) = Some x.
Proof. intros Hf. simpl. by rewrite Hf. Qed.

Lemma find_skip {A} (f : A → bool) x l : f x = false → find f (x :: l) = find f l.
Proof. intros Hf. simpl. by rewrite Hf. Qed.

Lemma filter_keep {A} (f : A → bool) x l :
  f x = true → List.filter f (x :: l) = x :: List.filter f l.
Proof. intros Hf. simpl. by rewrite Hf. Qed.

Lemma filter_drop {A} (f : A → bool) x l :
  f x = false → List.filter f (x :: l) = List.filter f l.
Proof. intros Hf. simpl. by rewrite Hf. Qed.

Lemma sample_base_NoDup : NoDup (mro DynamicTFPolicy).
Proof. apply (NoDup_fmap_1 cid). apply (bool_decide_unpack _). vm_compute. exact I. Qed.

(** The linearisation of the class built from the two sample mixins,
    without the class itself. *)
Lemma sample_mixins_built st :
  lists st !! mixin_list = Some [schedule_mixin; value_mixin] →
  next_cid st = 100 →
  ∃ st1,
    build_tf_policy DynamicTFPolicy kw_mixins st =
      Returns (st1, produced_class 102
                      [ClassBody 101 ∅; cls_body schedule_mixin; ClassBody 100 ∅;
                       cls_body value_mixin; DynamicTFPolicy_body; TFPolicy_body;
                       Policy_body; object_body] kw_mixins) ∧
    lists st1 !! mixin_list = Some [] ∧
    next_cid st1 = 103.
Proof.
  intros Hl Hid.
  destruct (build_tf_policy_plain DynamicTFPolicy object_body kw_mixins st mixin_list
              [schedule_mixin; value_mixin] [TFPolicy_body; Policy_body])
    as (st1 & Hb & Hl1 & Hid1); [reflexivity|exact Hl|reflexivity|exact sample_base_NoDup|..].
  - intros M HM. repeat (apply elem_of_cons in HM as [->|HM]); [reflexivity..|].
    by apply elem_of_nil in HM.
  - apply (NoDup_fmap_1 cid). apply (bool_decide_unpack _). vm_compute. exact I.
  - intros M HM. repeat (apply elem_of_cons in HM as [->|HM]);
      [| |by apply elem_of_nil in HM]; apply (bool_decide_unpack _); vm_compute; exact I.
  - rewrite Hid. intros M HM. repeat (apply elem_of_cons in HM as [->|HM]);
      [| |by apply elem_of_nil in HM]; apply (bool_decide_unpack _); vm_compute; exact I.
  - rewrite Hid. intros x Hx. repeat (apply elem_of_cons in Hx as [->|Hx]);
      [| | | |by apply elem_of_nil in Hx]; apply (bool_decide_unpack _); vm_compute; exact I.
  - rewrite Hid in Hb, Hid1. exists st1. split_and!; [exact Hb|exact Hl1|exact Hid1].
Qed.

(** The class [with_updates] rebuilds once the list has been emptied. *)
Lemma sample_mixins_rebuilt st1 :
  lists st1 !! mixin_list = Some [] →
  build_tf_policy DynamicTFPolicy kw_mixins st1 =
    Returns (fresh_cid st1, produced_class (next_cid st1) (mro DynamicTFPolicy) kw_mixins).
Proof.
  intros Hl. apply build_tf_policy_without_mixins; [|exact sample_base_NoDup].
  right. by exists mixin_list.
Qed.

Lemma sample_plain_built kw st :
  mixins kw = None →
  build_tf_policy DynamicTFPolicy kw st =
    Returns (fresh_cid st, produced_class (next_cid st) (mro DynamicTFPolicy) kw).
Proof.
  intros Hmix. apply build_tf_policy_without_mixins; [by left|exact sample_base_NoDup].
Qed.

End sample_facts.

(** * The factory on the sample inputs *)

Section factory_samples.

Import Sample.

Ltac lookup_in_mro :=
  unfold class_getattr, mro, produced_class; cbn [pc_class cls_body cls_ancestors];
  repeat first [ rewrite find_here by (vm_compute; reflexivity)
               | rewrite find_skip by (vm_compute; reflexivity) ].

Ltac bases_of :=
  unfold effective_bases, produced_class, mro; cbn [pc_class cls_body cls_ancestors];
  repeat first [ rewrite filter_keep by (vm_compute; reflexivity)
               | rewrite filter_drop by (vm_compute; reflexivity) ].

(** The class built from the two sample mixins. *)
Lemma sample_build :
  ∃ st1 cls,
    build_tf_policy DynamicTFPolicy kw_mixins st0 = Returns (st1, cls) ∧
    map cid (mro (pc_class cls)) = [102; 101; 10; 100; 11; 3; 2; 1; 0].
Proof.
  destruct (sample_mixins_built st0 eq_refl eq_refl) as (st1 & Hb & _ & _).
  eexists _, _. split; [exact Hb|]. reflexivity.
Qed.

Lemma build_tf_policy_name_witness :
  ∃ st1 cls,
    build_tf_policy DynamicTFPolicy kw_mixins st0 = Returns (st1, cls) ∧
    pc_name cls = "P" ∧ pc_qualname cls = "P".
Proof.
  destruct (sample_mixins_built st0 eq_refl eq_refl) as (st1 & Hb & _ & _).
  eexists _, _. split; [exact Hb|].
  exact (build_tf_policy_name DynamicTFPolicy kw_mixins st0 _ _ Hb).
Defined.

Lemma build_tf_policy_empties_mixins_witness :
  ∃ st1 cls,
    build_tf_policy DynamicTFPolicy kw_mixins st0 = Returns (st1, cls) ∧
    lists st0 !! mixin_list = Some [schedule_mixin; value_mixin] ∧
    lists st1 !! mixin_list = Some [].
Proof.
  destruct (sample_mixins_built st0 eq_refl eq_refl) as (st1 & Hb & _ & _).
  eexists _, _. split_and!; [exact Hb|reflexivity|].
  apply (build_tf_policy_empties_mixins DynamicTFPolicy kw_mixins st0 _ _
           mixin_list [schedule_mixin; value_mixin] Hb); [reflexivity..|discriminate].
Defined.



(** C1, at the failing input: the class built with two mixins inherits
    from both; the class its [with_updates] returns for no overrides
    inherits from neither, and a method the mixins override is looked up
    in [Policy] again. *)
Theorem with_updates_forgets_mixins :
  ∃ st1 cls st2 cls',
    build_tf_policy DynamicTFPolicy kw_mixins st0 = Returns (st1, cls) ∧
    with_updates DynamicTFPolicy cls no_overrides st1 = Returns (st2, cls') ∧
    effective_bases cls =
      [cls_body schedule_mixin; cls_body value_mixin; DynamicTFPolicy_body;
       TFPolicy_body; Policy_body; object_body] ∧
    effective_bases cls' =
      [DynamicTFPolicy_body; TFPolicy_body; Policy_body; object_body] ∧
    class_getattr (pc_class cls) "on_global_var_update" = Some (cls_body schedule_mixin) ∧
    class_getattr (pc_class cls') "on_global_var_update" = Some Policy_body ∧
    ¬ behaviourally_identical cls cls'.
Proof.
  destruct (sample_mixins_built st0 eq_refl eq_refl) as (st1 & Hb & Hl1 & Hid1).
  pose proof (sample_mixins_rebuilt st1 Hl1) as Hu.
  assert (effective_bases
            (produced_class 102
               [ClassBody 101 ∅; cls_body schedule_mixin; ClassBody 100 ∅;
                cls_body value_mixin; DynamicTFPolicy_body; TFPolicy_body;
                Policy_body; object_body] kw_mixins) =
          [cls_body schedule_mixin; cls_body value_mixin; DynamicTFPolicy_body;
           TFPolicy_body; Policy_body; object_body]) as Hbases by (bases_of; reflexivity).
  assert (effective_bases
            (produced_class (next_cid st1) (mro DynamicTFPolicy) kw_mixins) =
          [DynamicTFPolicy_body; TFPolicy_body; Policy_body; object_body]) as Hbases'
    by (bases_of; reflexivity).
  eexists _, _, _, _. split; [exact Hb|]. split.
  { rewrite with_updates_no_overrides. exact Hu. }
  split_and!; [exact Hbases|exact Hbases'| | |].
  - lookup_in_mro. reflexivity.
  - lookup_in_mro. reflexivity.
  - intros (_ & _ & _ & _ & Heq). rewrite Hbases, Hbases' in Heq.
    apply (f_equal length) in Heq. discriminate.
Qed.

End factory_samples.

(** * Instances on the sample inputs *)

Section instance_samples.

Import Sample.

Lemma quiet_postprocess self sample_batch other_agent_batches episode (w : world unit) :
  quiet pyval (Policy_postprocess_trajectory self sample_batch other_agent_batches episode) w
  = (w, sample_batch).
Proof. reflexivity. Qed.

Lemma init_order_witness :
  ∃ st1 cls,
    build_tf_policy DynamicTFPolicy kw_callbacks st0 = Returns (st1, cls) ∧
    ∃ default_config fetches w',
      __init__ quiet cls self0 obs act caller_config PyNone w0 =
        (init_events kw_callbacks self0 obs act caller_config PyNone default_config fetches,
         Returns (w', ())) ∧
      (extra_action_fetches_fn kw_callbacks = None → fetches = ∅).
Proof.
  pose proof (sample_plain_built kw_callbacks st0 eq_refl) as Hb.
  eexists _, _. split; [exact Hb|].
  exact (init_order DynamicTFPolicy unit quiet kw_callbacks st0 _ _ self0 obs act
           caller_config PyNone w0 Hb).
Defined.

Lemma config_merge_witness :
  ∃ st1 cls,
    build_tf_policy DynamicTFPolicy kw_callbacks st0 = Returns (st1, cls) ∧
    ∃ used,
      (∀ e c, e ∈ (__init__ quiet cls self0 obs act caller_config PyNone w0).1 →
              config_of e = Some c → c = used) ∧
      ∃ default_config,
        Called (call_get_default_config default_config_fn) default_config
          ∈ (__init__ quiet cls self0 obs act caller_config PyNone w0).1 ∧
        used !! "lr" = Some (PyObj 5) ∧ used !! "gamma" = default_config !! "gamma".
Proof.
  pose proof (sample_plain_built kw_callbacks st0 eq_refl) as Hb.
  eexists _, _. split; [exact Hb|].
  destruct (config_merge DynamicTFPolicy unit quiet kw_callbacks st0 _ _ self0 obs act
              caller_config PyNone w0 Hb) as (used & Hall & _ & Hmerge).
  exists used. split; [exact Hall|].
  cbn [get_default_config kw_callbacks] in Hmerge.
  destruct Hmerge as (default_config & Hin & Hlookup).
  exists default_config. split; [exact Hin|].
  rewrite !Hlookup. unfold caller_config.
  rewrite lookup_singleton_eq, lookup_singleton_ne by done. split; reflexivity.
Defined.


Lemma unset_callbacks_use_defaults_witness :
  ∃ st1 cls,
    build_tf_policy DynamicTFPolicy kw_mixins st0 = Returns (st1, cls) ∧
    (postprocess_trajectory quiet cls self0 batch PyNone PyNone w0).2 =
      (call quiet (Policy_postprocess_trajectory self0 batch PyNone PyNone) w0).2 ∧
    optimizer quiet cls self0 w0 = call quiet (TFPolicy_optimizer self0) w0 ∧
    extra_compute_grad_fetches quiet LEARNER_STATS_KEY cls self0 w0 =
      call quiet (TFPolicy_extra_compute_grad_fetches self0) w0.
Proof.
  destruct (sample_mixins_built st0 eq_refl eq_refl) as (st1 & Hb & _ & _).
  eexists _, _. split; [exact Hb|].
  destruct (unset_callbacks_use_defaults DynamicTFPolicy unit quiet LEARNER_STATS_KEY
              kw_mixins st0 _ _ self0 w0 Hb (quiet_postprocess self0))
    as (Hpost & Hopt & _ & _ & Hgrad & _).
  split_and!; [apply Hpost|apply Hopt|apply Hgrad]; reflexivity.
Defined.

Lemma given_callbacks_are_called_witness :
  ∃ st1 cls,
    build_tf_policy DynamicTFPolicy kw_callbacks st0 = Returns (st1, cls) ∧
    extra_compute_grad_fetches quiet LEARNER_STATS_KEY cls self0 w0 =
      ([Called (call_dict_fn learn_fetches self0) ∅],
       Returns (w0, py_dict {[ LEARNER_STATS_KEY := PyDict ∅ ]} ∅)).
Proof.
  pose proof (sample_plain_built kw_callbacks st0 eq_refl) as Hb.
  eexists _, _. split; [exact Hb|].
  destruct (given_callbacks_are_called DynamicTFPolicy unit quiet LEARNER_STATS_KEY
              kw_callbacks st0 _ _ self0 w0 Hb)
    as (_ & _ & _ & _ & _ & Hgrad & _).
  apply (Hgrad learn_fetches w0 ∅); reflexivity.
Defined.

Lemma learner_stats_present_witness :
  ∃ st1 cls,
    build_tf_policy DynamicTFPolicy kw_callbacks st0 = Returns (st1, cls) ∧
    ∃ w1 fetches returned,
      quiet dict (call_dict_fn learn_fetches self0) w0 = (w1, fetches) ∧
      (extra_compute_grad_fetches quiet LEARNER_STATS_KEY cls self0 w0).2
        = Returns (w1, returned) ∧
      (fetches !! LEARNER_STATS_KEY = None →
       returned !! LEARNER_STATS_KEY = Some (PyDict ∅)) ∧
      (∀ v, fetches !! LEARNER_STATS_KEY = Some v →
       returned !! LEARNER_STATS_KEY = Some v).
Proof.
  pose proof (sample_plain_built kw_callbacks st0 eq_refl) as Hb.
  eexists _, _. split; [exact Hb|].
  exact (learner_stats_present DynamicTFPolicy unit quiet LEARNER_STATS_KEY
           kw_callbacks st0 _ _ self0 w0 learn_fetches Hb eq_refl).
Defined.

(** C3, counterexample: [extra_learn_fetches_fn] is given and returns the
    empty dictionary; [extra_compute_grad_fetches] returns a dictionary
    with one entry. *)
Lemma learn_fetches_not_returned_as_is :
  ∃ st1 cls,
    build_tf_policy DynamicTFPolicy kw_callbacks st0 = Returns (st1, cls) ∧
    extra_learn_fetches_fn kw_callbacks = Some learn_fetches ∧
    (call quiet (call_dict_fn learn_fetches self0) w0).2 = Returns (w0, ∅) ∧
    (extra_compute_grad_fetches quiet LEARNER_STATS_KEY cls self0 w0).2
      = Returns (w0, {[ LEARNER_STATS_KEY := PyDict ∅ ]}) ∧
    (extra_compute_grad_fetches quiet LEARNER_STATS_KEY cls self0 w0).2
      ≠ (call quiet (call_dict_fn learn_fetches self0) w0).2.
Proof.
  pose proof (sample_plain_built kw_callbacks st0 eq_refl) as Hb.
  assert ((extra_compute_grad_fetches quiet LEARNER_STATS_KEY
             (produced_class (next_cid st0) (mro DynamicTFPolicy) kw_callbacks) self0 w0).2
          = Returns (w0, {[ LEARNER_STATS_KEY := PyDict ∅ ]})) as Hgrad.
  { change (Returns (w0, py_dict {[ LEARNER_STATS_KEY := PyDict ∅ ]} ∅)
            = Returns (w0, ({[ LEARNER_STATS_KEY := PyDict ∅ ]} : dict))).
    unfold py_dict. by rewrite (left_id_L ∅ (∪)). }
  eexists _, _. split; [exact Hb|]. split_and!; [reflexivity|reflexivity|exact Hgrad|].
  rewrite Hgrad. intros Heq.
  apply (f_equal (λ o : outcome (world unit * dict),
                    match o with
                    | Returns (_, d) => d !! LEARNER_STATS_KEY
                    | Raises _ => None
                    end)) in Heq.
  cbv beta iota in Heq. rewrite lookup_singleton_eq in Heq.
  change ((call quiet (call_dict_fn learn_fetches self0) w0).2)
    with (Returns (w0, (∅ : dict))) in Heq.
  cbv beta iota in Heq. by rewrite lookup_empty in Heq.
Qed.

End instance_samples.

(** * The further properties on the sample inputs *)

Section more_samples.

Import Sample.


Ltac decided := apply (bool_decide_unpack _); vm_compute; exact I.

Lemma build_tf_policy_frame_witness :
  ∃ st1 cls,
    build_tf_policy DynamicTFPolicy kw_mixins st_two = Returns (st1, cls) ∧
    lists st1 !! 1 = Some [value_mixin].
Proof.
  destruct (sample_mixins_built st_two eq_refl eq_refl) as (st1 & Hb & _ & _).
  eexists _, _. split; [exact Hb|].
  etrans; [apply (build_tf_policy_frame DynamicTFPolicy kw_mixins st_two _ _ 1 Hb);
           discriminate|reflexivity].
Defined.

Lemma mixins_in_list_order_witness :
  ∃ st1 cls,
    build_tf_policy DynamicTFPolicy kw_mixins st0 = Returns (st1, cls) ∧
    [cls_body schedule_mixin; cls_body value_mixin] `sublist_of` mro (pc_class cls).
Proof.
  destruct (sample_mixins_built st0 eq_refl eq_refl) as (st1 & Hb & _ & _).
  eexists _, _. split; [exact Hb|].
  apply (mixins_in_list_order DynamicTFPolicy kw_mixins st0 _ _ mixin_list
           [schedule_mixin; value_mixin] 0 1 schedule_mixin value_mixin Hb);
    [reflexivity|reflexivity|lia|reflexivity|reflexivity].
Defined.

Lemma produced_class_bases_witness :
  ∃ st1 cls,
    build_tf_policy DynamicTFPolicy kw_mixins st0 = Returns (st1, cls) ∧
    mro DynamicTFPolicy `sublist_of` mro (pc_class cls) ∧
    cls_body value_mixin ∈ mro (pc_class cls).
Proof.
  destruct (sample_mixins_built st0 eq_refl eq_refl) as (st1 & Hb & _ & _).
  eexists _, _. split; [exact Hb|].
  destruct (produced_class_bases DynamicTFPolicy kw_mixins st0 _ _ Hb)
    as (Hbase & _ & Hmixin).
  split; [exact Hbase|].
  apply (Hmixin mixin_list [schedule_mixin; value_mixin] value_mixin);
    [reflexivity|reflexivity|]. apply list_elem_of_further, list_elem_of_here.
Defined.

Lemma repeated_mixin_raises_witness :
  build_tf_policy DynamicTFPolicy kw_mixins st_twice = Raises TypeError.
Proof.
  apply (repeated_mixin_raises DynamicTFPolicy kw_mixins st_twice mixin_list
           [schedule_mixin; schedule_mixin]); [reflexivity|reflexivity|].
  left. exists 0, 1, schedule_mixin, schedule_mixin.
  split_and!; [lia|reflexivity..].
Defined.

Lemma own_methods_found_first_witness :
  ∃ st1 cls,
    build_tf_policy DynamicTFPolicy kw_mixins st0 = Returns (st1, cls) ∧
    class_getattr (pc_class cls) "optimizer" = Some (cls_body (pc_class cls)).
Proof.
  destruct (sample_mixins_built st0 eq_refl eq_refl) as (st1 & Hb & _ & _).
  eexists _, _. split; [exact Hb|].
  apply (own_methods_found_first DynamicTFPolicy kw_mixins st0 _ _ "optimizer" Hb).
  left. decided.
Defined.



Lemma with_updates_identical_without_mixins_witness :
  ∃ st1 cls cls',
    build_tf_policy DynamicTFPolicy kw_callbacks st0 = Returns (st1, cls) ∧
    with_updates DynamicTFPolicy cls no_overrides st1 = Returns (fresh_cid st1, cls') ∧
    behaviourally_identical cls cls'.
Proof.
  pose proof (sample_plain_built kw_callbacks st0 eq_refl) as Hb.
  destruct (with_updates_identical_without_mixins DynamicTFPolicy kw_callbacks st0 _ _
              Hb eq_refl) as (cls' & Hu & Hsame).
  eexists _, _, cls'. split; [exact Hb|]. split; [exact Hu|exact Hsame].
Defined.

Lemma with_updates_inherits_base_only_witness :
  ∃ st1 cls st2 cls',
    build_tf_policy DynamicTFPolicy kw_mixins st0 = Returns (st1, cls) ∧
    with_updates DynamicTFPolicy cls no_overrides st1 = Returns (st2, cls') ∧
    ∀ x, x ∈ cls_ancestors (pc_class cls') → x ∈ mro DynamicTFPolicy.
Proof.
  destruct (sample_mixins_built st0 eq_refl eq_refl) as (st1 & Hb & Hl1 & _).
  pose proof (sample_mixins_rebuilt st1 Hl1) as Hu.
  rewrite <- (with_updates_no_overrides DynamicTFPolicy
                (produced_class 102
                   [ClassBody 101 ∅; cls_body schedule_mixin; ClassBody 100 ∅;
                    cls_body value_mixin; DynamicTFPolicy_body; TFPolicy_body;
                    Policy_body; object_body] kw_mixins)) in Hu.
  eexists _, _, _, _. split; [exact Hb|]. split; [exact Hu|].
  exact (with_updates_inherits_base_only DynamicTFPolicy kw_mixins st0 _ _
           mixin_list _ _ Hb eq_refl Hu).
Defined.

Lemma with_updates_overrides_witness :
  ∃ st1 cls st2 cls',
    build_tf_policy DynamicTFPolicy kw_callbacks st0 = Returns (st1, cls) ∧
    with_updates DynamicTFPolicy cls ov_name_optimizer st1 = Returns (st2, cls') ∧
    pc_name cls' = "Q" ∧
    optimizer_fn (pc_closure cls') = Some learn_fetches ∧
    before_init (pc_closure cls') = Some setup_hook.
Proof.
  pose proof (sample_plain_built kw_callbacks st0 eq_refl) as Hb.
  assert (with_updates DynamicTFPolicy
            (produced_class (next_cid st0) (mro DynamicTFPolicy) kw_callbacks)
            ov_name_optimizer (fresh_cid st0) =
          Returns (fresh_cid (fresh_cid st0),
                   produced_class (next_cid (fresh_cid st0)) (mro DynamicTFPolicy)
                     (dict_kwargs kw_callbacks ov_name_optimizer))) as Hu
    by exact (sample_plain_built (dict_kwargs kw_callbacks ov_name_optimizer)
                (fresh_cid st0) eq_refl).
  eexists _, _, _, _. split; [exact Hb|]. split; [exact Hu|].
  destruct (with_updates_overrides DynamicTFPolicy kw_callbacks st0 _ _
              ov_name_optimizer _ _ Hb Hu) as (Hclosure & Hname & _).
  rewrite Hclosure, Hname. split_and!; reflexivity.
Defined.

Lemma with_updates_twice_witness :
  ∃ st1 cls st2 cls1 st3 cls2,
    build_tf_policy DynamicTFPolicy kw_callbacks st0 = Returns (st1, cls) ∧
    with_updates DynamicTFPolicy cls ov_name_optimizer st1 = Returns (st2, cls1) ∧
    with_updates DynamicTFPolicy cls1 (only_get_batch_divisibility_req (Some loss)) st2
      = Returns (st3, cls2) ∧
    name (pc_closure cls2) = "Q" ∧
    get_batch_divisibility_req (pc_closure cls2) = Some loss.
Proof.
  pose proof (sample_plain_built kw_callbacks st0 eq_refl) as Hb.
  assert (with_updates DynamicTFPolicy
            (produced_class (next_cid st0) (mro DynamicTFPolicy) kw_callbacks)
            ov_name_optimizer (fresh_cid st0) =
          Returns (fresh_cid (fresh_cid st0),
                   produced_class (next_cid (fresh_cid st0)) (mro DynamicTFPolicy)
                     (dict_kwargs kw_callbacks ov_name_optimizer))) as Hu1
    by exact (sample_plain_built (dict_kwargs kw_callbacks ov_name_optimizer)
                (fresh_cid st0) eq_refl).
  assert (with_updates DynamicTFPolicy
            (produced_class (next_cid (fresh_cid st0)) (mro DynamicTFPolicy)
               (dict_kwargs kw_callbacks ov_name_optimizer))
            (only_get_batch_divisibility_req (Some loss)) (fresh_cid (fresh_cid st0)) =
          Returns (fresh_cid (fresh_cid (fresh_cid st0)),
                   produced_class (next_cid (fresh_cid (fresh_cid st0)))
                     (mro DynamicTFPolicy)
                     (dict_kwargs (dict_kwargs kw_callbacks ov_name_optimizer)
                        (only_get_batch_divisibility_req (Some loss))))) as Hu2
    by exact (sample_plain_built
                (dict_kwargs (dict_kwargs kw_callbacks ov_name_optimizer)
                   (only_get_batch_divisibility_req (Some loss)))
                (fresh_cid (fresh_cid st0)) eq_refl).
  eexists _, _, _, _, _, _. split_and!; [exact Hb|exact Hu1|exact Hu2| |].
  - by rewrite (with_updates_twice DynamicTFPolicy kw_callbacks st0 _ _
                  ov_name_optimizer _ _ _ _ _ Hb Hu1 Hu2).
  - by rewrite (with_updates_twice DynamicTFPolicy kw_callbacks st0 _ _
                  ov_name_optimizer _ _ _ _ _ Hb Hu1 Hu2).
Defined.

Lemma quiet_leaves_fetches : leaves_attr quiet "_extra_action_fetches".
Proof.
  intros R c w. destruct c; try reflexivity.
  cbn [quiet fst self_dict]. by rewrite lookup_insert_ne.
Qed.

Lemma learn_fetches_kept_witness :
  ∃ st1 cls,
    build_tf_policy DynamicTFPolicy kw_callbacks st0 = Returns (st1, cls) ∧
    ∃ w1 fetches returned,
      quiet dict (call_dict_fn learn_fetches self0) w0 = (w1, fetches) ∧
      (extra_compute_grad_fetches quiet LEARNER_STATS_KEY cls self0 w0).2
        = Returns (w1, returned) ∧
      (∀ k v, fetches !! k = Some v → returned !! k = Some v) ∧
      (∀ k, k ≠ LEARNER_STATS_KEY → returned !! k = fetches !! k) ∧
      dom returned = dom fetches ∪ {[ LEARNER_STATS_KEY ]}.
Proof.
  pose proof (sample_plain_built kw_callbacks st0 eq_refl) as Hb.
  eexists _, _. split; [exact Hb|].
  exact (learn_fetches_kept DynamicTFPolicy unit quiet LEARNER_STATS_KEY
           kw_callbacks st0 _ _ self0 w0 learn_fetches Hb eq_refl).
Defined.

Lemma action_fetches_lookup_witness :
  ∃ returned,
    (extra_compute_action_fetches quiet self0 w_stored).2 = Returns (w_stored, returned) ∧
    ∀ k, returned !! k =
         match ({[ "action_prob" := PyObj 30; "vf_preds" := PyObj 31 ]} : dict) !! k with
         | Some v => Some v
         | None => ({[ "action_prob" := PyObj 9 ]} : dict) !! k
         end.
Proof.
  apply (action_fetches_lookup unit quiet self0 w_stored w_stored
           {[ "action_prob" := PyObj 9 ]}
           {[ "action_prob" := PyObj 30; "vf_preds" := PyObj 31 ]}).
  - reflexivity.
  - apply lookup_singleton_eq.
Defined.


Lemma optimizer_without_config_witness :
  ∃ st1 cls,
    build_tf_policy DynamicTFPolicy kw_optimizer st0 = Returns (st1, cls) ∧
    optimizer quiet cls self0 w0 = ([], Raises AttributeError).
Proof.
  pose proof (sample_plain_built kw_optimizer st0 eq_refl) as Hb.
  eexists _, _. split; [exact Hb|].
  apply (optimizer_without_config DynamicTFPolicy unit quiet kw_optimizer st0 _ _
           self0 w0 setup_hook Hb eq_refl). apply lookup_empty.
Defined.

Lemma get_batch_divisibility_req_unused_witness :
  ∃ st1 cls st2 cls',
    build_tf_policy DynamicTFPolicy kw_callbacks st0 = Returns (st1, cls) ∧
    build_tf_policy DynamicTFPolicy
      (dict_kwargs kw_callbacks (only_get_batch_divisibility_req (Some loss))) st0
      = Returns (st2, cls') ∧
    get_batch_divisibility_req (pc_closure cls) ≠
      get_batch_divisibility_req (pc_closure cls') ∧
    ∀ w, __init__ quiet cls' self0 obs act caller_config PyNone w =
         __init__ quiet cls self0 obs act caller_config PyNone w.
Proof.
  pose proof (sample_plain_built kw_callbacks st0 eq_refl) as Hb.
  pose proof (sample_plain_built
                (dict_kwargs kw_callbacks (only_get_batch_divisibility_req (Some loss)))
                st0 eq_refl) as Hb'.
  eexists _, _, _, _. split; [exact Hb|]. split; [exact Hb'|]. split; [discriminate|].
  destruct (get_batch_divisibility_req_unused DynamicTFPolicy unit quiet
              LEARNER_STATS_KEY kw_callbacks st0 _ _ (Some loss) st0 _ _ self0 Hb Hb')
    as (Hinit & _).
  intros w. apply Hinit.
Defined.

Lemma fetches_stored_by_init_witness :
  ∃ st1 cls,
    build_tf_policy DynamicTFPolicy kw_callbacks st0 = Returns (st1, cls) ∧
    ∃ fetches w',
      (__init__ quiet cls self0 obs act caller_config PyNone w0).2 = Returns (w', ()) ∧
      self_dict w' !! "_extra_action_fetches" = Some (PyDict fetches) ∧
      Called (call_dict_fn action_fetches self0) fetches
        ∈ (__init__ quiet cls self0 obs act caller_config PyNone w0).1 ∧
      ∀ w1 base_fetches,
        quiet dict (TFPolicy_extra_compute_action_fetches self0) w' = (w1, base_fetches) →
        (extra_compute_action_fetches quiet self0 w').2
          = Returns (w1, py_dict base_fetches fetches).
Proof.
  pose proof (sample_plain_built kw_callbacks st0 eq_refl) as Hb.
  eexists _, _. split; [exact Hb|].
  exact (fetches_stored_by_init DynamicTFPolicy unit quiet kw_callbacks st0 _ _ self0
           obs act caller_config PyNone w0 Hb quiet_leaves_fetches).
Defined.

End more_samples.
